(** * VaultGuard OTP bot: a shallow embedding of [VultBaby/VultBaby_bot.py]

    The development follows the class [OTPBot] method by method.  Python
    dictionaries are finite maps, the two sources of nondeterminism
    ([datetime.now()] and [random.choices]) are oracles read through a
    counter, and every handler is a computation in a small state and
    exception monad: a Python exception leaves the mutations made before it
    in place, exactly as the interpreter does. *)

From Stdlib Require Import ZArith NArith String Ascii.
From stdpp Require Import gmap list.

(** ** Python strings

    A [str] is a sequence of Unicode code points. *)

Abbreviation pystr := (list N).

Definition str (s : string) : pystr :=
  N_of_ascii <$> list_ascii_of_string s.

(** Code points for which [str.isdigit] holds (Numeric_Type Digit or Decimal),
    as inclusive ranges of the Unicode character database 14.0. *)
Definition digit_ranges : list (N * N) :=
  [ (48, 57); (178, 179); (185, 185); (1632, 1641); (1776, 1785);
    (1984, 1993); (2406, 2415); (2534, 2543); (2662, 2671); (2790, 2799);
    (2918, 2927); (3046, 3055); (3174, 3183); (3302, 3311); (3430, 3439);
    (3558, 3567); (3664, 3673); (3792, 3801); (3872, 3881); (4160, 4169);
    (4240, 4249); (4969, 4977); (6112, 6121); (6160, 6169); (6470, 6479);
    (6608, 6618); (6784, 6793); (6800, 6809); (6992, 7001); (7088, 7097);
    (7232, 7241); (7248, 7257); (8304, 8304); (8308, 8313); (8320, 8329);
    (9312, 9320); (9332, 9340); (9352, 9360); (9450, 9450); (9461, 9469);
    (9471, 9471); (10102, 10110); (10112, 10120); (10122, 10130);
    (42528, 42537); (43216, 43225); (43264, 43273); (43472, 43481);
    (43504, 43513); (43600, 43609); (44016, 44025); (65296, 65305);
    (66720, 66729); (68160, 68163); (68912, 68921); (69216, 69224);
    (69714, 69722); (69734, 69743); (69872, 69881); (69942, 69951);
    (70096, 70105); (70384, 70393); (70736, 70745); (70864, 70873);
    (71248, 71257); (71360, 71369); (71472, 71481); (71904, 71913);
    (72016, 72025); (72784, 72793); (73040, 73049); (73120, 73129);
    (92768, 92777); (92864, 92873); (93008, 93017); (120782, 120831);
    (123200, 123209); (123632, 123641); (125264, 125273); (127232, 127242);
    (130032, 130041) ]%N.

(** Code points that [str.strip()] removes, i.e. those with [str.isspace]. *)
Definition space_ranges : list (N * N) :=
  [ (9, 13); (28, 32); (133, 133); (160, 160); (5760, 5760); (8192, 8202);
    (8232, 8233); (8239, 8239); (8287, 8287); (12288, 12288) ]%N.

Definition in_ranges (rs : list (N * N)) (c : N) : bool :=
  existsb (λ r, (r.1 <=? c)%N && (c <=? r.2)%N) rs.

Definition isdigit_char : N → bool := in_ranges digit_ranges.
Definition isspace_char : N → bool := in_ranges space_ranges.

(** [s.isdigit()]: every character is a digit and there is at least one. *)
Definition isdigit (s : pystr) : bool :=
  match s with
  | [] => false
  | _ => forallb isdigit_char s
  end.

Fixpoint lstrip (s : pystr) : pystr :=
  match s with
  | c :: s' => if isspace_char c then lstrip s' else s
  | [] => []
  end.

Definition rstrip (s : pystr) : pystr := reverse (lstrip (reverse s)).

(** [s.strip()] *)
Definition strip (s : pystr) : pystr := rstrip (lstrip s).

(** [s.startswith(p)] *)
Fixpoint startswith (p s : pystr) : bool :=
  match p, s with
  | [], _ => true
  | a :: p', b :: s' => bool_decide (a = b) && startswith p' s'
  | _ :: _, [] => false
  end.

(** [string.digits] *)
Definition string_digits : pystr := Eval cbv in str "0123456789".

(** ** Records held by the bot *)

(** A [datetime] is a number of microseconds; [timedelta(seconds=n)] is
    [n] seconds expressed in that unit. *)
Definition timedelta_seconds (n : Z) : Z := (n * 1000000)%Z.

Record Service := mkService {
  name : pystr;
  expiry : Z
}.

Record User := mkUser {
  first_name : pystr;
  last_name : option pystr;
  username : option pystr;
  registered_at : Z;
  otp_count : Z;
  verified_count : Z
}.

Record Otp := mkOtp {
  code : pystr;
  service : pystr;
  service_name : pystr;
  created_at : Z;
  expires_at : Z;
  used : bool
}.

(** [self.services], fixed in [__init__] and never written again. *)
Definition services_items : list (pystr * Service) :=
  [ (str "email_verification", mkService (str "Email Verification") 300);
    (str "login_2fa", mkService (str "2FA Login") 180);
    (str "password_reset", mkService (str "Password Reset") 600);
    (str "transaction_verify", mkService (str "Transaction Verification") 120);
    (str "account_security", mkService (str "Account Security") 300) ].

Definition services : gmap pystr Service := list_to_map services_items.

(** ** Messages handed to the transport *)

Inductive Via :=
  | EditMessage   (* update.callback_query.edit_message_text *)
  | ReplyText.    (* update.message.reply_text *)

(** What [verify_otp_command] and [show_stats] print about the current OTP. *)
Inductive OtpInfo :=
  | InfoActive (code service_name : pystr) (mins secs : Z)
  | InfoExpired
  | InfoNone.

Inductive Msg :=
  | MWelcome (first_name : pystr)
  | MSelectService (buttons : list pystr)
  | MGenerated (service_name code : pystr) (expiry_mins expiry_secs generated_at : Z)
  | MVerifyMenu (info : OtpInfo)
  | MNoOtpToVerify
  | MVerifiedCurrent (service_name code : pystr) (verified_at : Z)
  | MFailedExpired (service_name code : pystr)
  | MStats (u : User) (info : OtpInfo) (nservices : nat)
  | MServices (listing : list (pystr * pystr * Z))
  | MHelp
  | MVerified (service_name code : pystr) (verified_at : Z)
  | MInvalidOrExpired
  | MNoActiveOtp
  | MNotUnderstood.

Inductive Sent :=
  | Answer                     (* query.answer() *)
  | Send (via : Via) (m : Msg).

(** ** The bot object and its environment *)

Record OTPBot := mkBot {
  users : gmap Z User;
  otp_codes : gmap Z Otp;
  (* every snapshot [save_data] hands to [json.dump], newest first *)
  saves : list (gmap Z User * Z);
  (* every transport call, newest first *)
  outbox : list Sent;
  (* [datetime.now()]: the [ticks]-th reading of the wall clock *)
  clock : nat → Z;
  ticks : nat;
  (* [random.random()]: the [draws]-th draw of the generator *)
  rng : nat → nat;
  draws : nat
}.

Definition set_users (f : gmap Z User → gmap Z User) (b : OTPBot) : OTPBot :=
  mkBot (f (users b)) (otp_codes b) (saves b) (outbox b)
        (clock b) (ticks b) (rng b) (draws b).

Definition set_otp_codes (f : gmap Z Otp → gmap Z Otp) (b : OTPBot) : OTPBot :=
  mkBot (users b) (f (otp_codes b)) (saves b) (outbox b)
        (clock b) (ticks b) (rng b) (draws b).

Definition push_save (s : gmap Z User * Z) (b : OTPBot) : OTPBot :=
  mkBot (users b) (otp_codes b) (s :: saves b) (outbox b)
        (clock b) (ticks b) (rng b) (draws b).

Definition push_sent (s : Sent) (b : OTPBot) : OTPBot :=
  mkBot (users b) (otp_codes b) (saves b) (s :: outbox b)
        (clock b) (ticks b) (rng b) (draws b).

Definition tick (b : OTPBot) : OTPBot :=
  mkBot (users b) (otp_codes b) (saves b) (outbox b)
        (clock b) (S (ticks b)) (rng b) (draws b).

Definition draw (b : OTPBot) : OTPBot :=
  mkBot (users b) (otp_codes b) (saves b) (outbox b)
        (clock b) (ticks b) (rng b) (S (draws b)).

(** ** The handler monad: state plus Python exceptions *)

(** The exceptions of the model are the [KeyError]s of the three
    dictionaries.  What the transport raises, and the [AttributeError] of a
    handler run on an update that carries no [update.message] (an edited
    message), are outside it. *)
Inductive Exn :=
  | KeyError_service (k : pystr)   (* self.services[k] *)
  | KeyError_user (k : Z)          (* self.users[k] *)
  | KeyError_otp (k : Z).          (* self.otp_codes[k] *)

Inductive Res (A : Type) :=
  | Ok (a : A)
  | Raise (e : Exn).
Arguments Ok {A} a.
Arguments Raise {A} e.

Definition M (A : Type) : Type := OTPBot → Res A * OTPBot.

#[global] Instance M_ret : MRet M := λ A a b, (Ok a, b).

#[global] Instance M_bind : MBind M := λ A B f m b,
  match m b with
  | (Ok a, b') => f a b'
  | (Raise e, b') => (Raise e, b')
  end.

Definition raise {A} (e : Exn) : M A := λ b, (Raise e, b).
Definition gets {A} (f : OTPBot → A) : M A := λ b, (Ok (f b), b).
Definition modify (f : OTPBot → OTPBot) : M unit := λ b, (Ok (), f b).

(** [datetime.now()] *)
Definition datetime_now : M Z := λ b, (Ok (clock b (ticks b)), tick b).

(** [floor(random() * n)], the index [random.choices] computes for each of
    its picks; the draw is reduced modulo [n] so that every generator yields
    an index below [n], as [random() < 1.0] guarantees. *)
Definition random_below (n : nat) : M nat :=
  λ b, (Ok (rng b (draws b) `mod` n), draw b).

Definition send (via : Via) (m : Msg) : M unit := modify (push_sent (Send via m)).

(** ** Subscripts that can raise *)

(** [self.users[user_id]] *)
Definition user_record (user_id : Z) : M User :=
  us ← gets users;
  match us !! user_id with
  | Some u => mret u
  | None => raise (KeyError_user user_id)
  end.

(** [self.otp_codes[user_id]] *)
Definition otp_record (user_id : Z) : M Otp :=
  cs ← gets otp_codes;
  match cs !! user_id with
  | Some o => mret o
  | None => raise (KeyError_otp user_id)
  end.

(** [del self.otp_codes[user_id]] *)
Definition del_otp (user_id : Z) : M unit :=
  _ ← otp_record user_id;
  modify (set_otp_codes (delete user_id)).

Definition bump_otp_count (u : User) : User :=
  mkUser (first_name u) (last_name u) (username u) (registered_at u)
         (otp_count u + 1) (verified_count u).

Definition bump_verified_count (u : User) : User :=
  mkUser (first_name u) (last_name u) (username u) (registered_at u)
         (otp_count u) (verified_count u + 1).

Definition mark_used (o : Otp) : Otp :=
  mkOtp (code o) (service o) (service_name o) (created_at o) (expires_at o) true.

(** [self.users[user_id][field] += 1] *)
Definition update_user (f : User → User) (user_id : Z) : M unit :=
  u ← user_record user_id;
  modify (set_users <[user_id := f u]>).

(** [self.otp_codes[user_id]['used'] = True] *)
Definition set_used (user_id : Z) : M unit :=
  o ← otp_record user_id;
  modify (set_otp_codes <[user_id := mark_used o]>).

(** ** Methods of [OTPBot] *)

(** [save_data]: the snapshot and its timestamp go to the file; an I/O
    failure is logged and swallowed, so the call never raises. *)
Definition save_data : M unit :=
  us ← gets users;
  ts ← datetime_now;
  modify (push_save (us, ts)).

(** [random.choices(population, k=k)] *)
Fixpoint random_choices (population : pystr) (k : nat) : M pystr :=
  match k with
  | O => mret []
  | S k' =>
      i ← random_below (length population);
      rest ← random_choices population k';
      mret (nth i population 0%N :: rest)
  end.

Definition generate_otp (length : nat) : M pystr :=
  random_choices string_digits length.

Definition is_otp_valid (user_id : Z) (otp : pystr) : M bool :=
  cs ← gets otp_codes;
  match cs !! user_id with
  | None => mret false
  | Some otp_data =>
      if bool_decide (code otp_data ≠ otp) then mret false
      else
        now ← datetime_now;
        if bool_decide (now > expires_at otp_data)%Z then
          del_otp user_id;; mret false
        else mret true
  end.

Record TgUser := mkTgUser {
  tg_id : Z;
  tg_first_name : pystr;
  tg_last_name : option pystr;
  tg_username : option pystr
}.

Definition start (user : TgUser) (via : Via) : M unit :=
  let user_id := tg_id user in
  us ← gets users;
  (if bool_decide (us !! user_id = None) then
     now ← datetime_now;
     modify (set_users <[user_id :=
       mkUser (tg_first_name user) (tg_last_name user) (tg_username user)
              now 0 0]>);;
     save_data
   else mret ());;
  send via (MWelcome (tg_first_name user)).

Definition show_services_for_generation (via : Via) : M unit :=
  send via (MSelectService
    (((λ kv, str "gen_" ++ kv.1) <$> services_items) ++ [str "main"])).

Definition generate_otp_command : M unit :=
  show_services_for_generation ReplyText.

Definition generate_otp_for_service (user_id : Z) (service_id : pystr) : M unit :=
  match services !! service_id with
  | None => raise (KeyError_service service_id)
  | Some service_info =>
      otp_code ← generate_otp 6;
      let expiry_seconds := expiry service_info in
      t ← datetime_now;
      let expires := (t + timedelta_seconds expiry_seconds)%Z in
      created ← datetime_now;
      modify (set_otp_codes <[user_id :=
        mkOtp otp_code service_id (name service_info) created expires false]>);;
      update_user bump_otp_count user_id;;
      save_data;;
      generated_at ← datetime_now;
      send EditMessage
        (MGenerated (name service_info) otp_code
           (expiry_seconds `div` 60) (expiry_seconds `mod` 60) generated_at)
  end.

(** The "current OTP" block shared by [verify_otp_command] and [show_stats].
    [int(time_left)] truncates the float [total_seconds()]; that is the
    exact quotient of the microseconds by 1000000 as long as the time left
    is below 2^34 seconds, the range in which a double resolves a
    microsecond. *)
Definition current_otp_info (user_id : Z) : M OtpInfo :=
  cs ← gets otp_codes;
  match cs !! user_id with
  | Some otp_data =>
      now ← datetime_now;
      let time_left := (expires_at otp_data - now)%Z in
      if bool_decide (time_left > 0)%Z then
        let whole := (time_left `quot` 1000000)%Z in
        mret (InfoActive (code otp_data) (service_name otp_data)
                (whole `div` 60) (whole `mod` 60))
      else mret InfoExpired
  | None => mret InfoNone
  end.

Definition verify_otp_command (user_id : Z) (via : Via) : M unit :=
  info ← current_otp_info user_id;
  send via (MVerifyMenu info).

Definition verify_current_otp (user_id : Z) : M unit :=
  cs ← gets otp_codes;
  match cs !! user_id with
  | None => send EditMessage MNoOtpToVerify
  | Some otp_data =>
      ok ← is_otp_valid user_id (code otp_data);
      if (ok : bool) then
        set_used user_id;;
        update_user bump_verified_count user_id;;
        save_data;;
        del_otp user_id;;
        now ← datetime_now;
        send EditMessage
          (MVerifiedCurrent (service_name otp_data) (code otp_data) now)
      else
        send EditMessage (MFailedExpired (service_name otp_data) (code otp_data))
  end.

Definition show_stats (user_id : Z) (via : Via) : M unit :=
  user_data ← user_record user_id;
  info ← current_otp_info user_id;
  send via (MStats user_data info (size services)).

Definition show_services (via : Via) : M unit :=
  send via (MServices
    ((λ kv, (name kv.2, kv.1, (expiry kv.2 `div` 60)%Z)) <$> services_items)).

Definition help_command : M unit := send ReplyText MHelp.

Definition handle_text_message (user_id : Z) (text : pystr) : M unit :=
  let message_text := strip text in
  if isdigit message_text && bool_decide (length message_text = 6) then
    cs ← gets otp_codes;
    if bool_decide (is_Some (cs !! user_id)) then
      ok ← is_otp_valid user_id message_text;
      if (ok : bool) then
        otp_data ← otp_record user_id;
        set_used user_id;;
        update_user bump_verified_count user_id;;
        save_data;;
        del_otp user_id;;
        now ← datetime_now;
        send ReplyText (MVerified (service_name otp_data) message_text now)
      else send ReplyText MInvalidOrExpired
    else send ReplyText MNoActiveOtp
  else send ReplyText MNotUnderstood.

Definition button_callback (user : TgUser) (data : pystr) : M unit :=
  modify (push_sent Answer);;
  if bool_decide (data = str "main") then start user EditMessage
  else if bool_decide (data = str "generate") then
    show_services_for_generation EditMessage
  else if bool_decide (data = str "verify") then
    verify_otp_command (tg_id user) EditMessage
  else if bool_decide (data = str "verify_current") then
    verify_current_otp (tg_id user)
  else if bool_decide (data = str "stats") then show_stats (tg_id user) EditMessage
  else if bool_decide (data = str "services") then show_services EditMessage
  else if startswith (str "gen_") data then
    generate_otp_for_service (tg_id user) (drop 4 data)
  else mret ().

Definition stats_command (user_id : Z) : M unit := show_stats user_id ReplyText.
Definition services_command : M unit := show_services ReplyText.

(** ** The handlers registered in [run] *)

Inductive Cmd := CStart | CGenerate | CVerify | CStats | CServices | CHelp.

(** The updates of the model carry a new message or a callback query:
    [update.message] or [update.callback_query] is set.  Edited messages,
    which the same handlers receive with [update.message] unset, are not
    among them. *)
Inductive Update :=
  | Command (user : TgUser) (c : Cmd)        (* CommandHandler *)
  | Callback (user : TgUser) (data : pystr)  (* CallbackQueryHandler *)
  | Text (user : TgUser) (text : pystr).     (* MessageHandler, TEXT and not COMMAND *)

Definition effective_user (u : Update) : TgUser :=
  match u with
  | Command user _ | Callback user _ | Text user _ => user
  end.

Definition process_update (u : Update) : M unit :=
  match u with
  | Command user CStart => start user ReplyText
  | Command _ CGenerate => generate_otp_command
  | Command user CVerify => verify_otp_command (tg_id user) ReplyText
  | Command user CStats => stats_command (tg_id user)
  | Command _ CServices => services_command
  | Command _ CHelp => help_command
  | Callback user data => button_callback user data
  | Text user text => handle_text_message (tg_id user) text
  end.

(** The bot after [__init__]: [load_data] supplies the users read from the
    file (none when it is absent), no OTP is live, nothing was sent. *)
Definition init (loaded : gmap Z User) (clk : nat → Z) (gen : nat → nat) : OTPBot :=
  mkBot loaded ∅ [] [] clk 0 gen 0.

(** A handler that raises is logged by the dispatcher and the bot goes on
    with the state the handler left behind. *)
Definition step (b : OTPBot) (u : Update) : OTPBot := (process_update u b).2.

Definition run_updates (b : OTPBot) (us : list Update) : OTPBot :=
  foldl step b us.

Inductive reachable : OTPBot → Prop :=
  | reachable_init loaded clk gen : reachable (init loaded clk gen)
  | reachable_step b u : reachable b → reachable (step b u).

(** ** Observations on a step *)

(** The transport calls one update adds to the outbox, newest first. *)
Definition sent_by (b : OTPBot) (u : Update) : list Sent :=
  take (length (outbox (step b u)) - length (outbox b)) (outbox (step b u)).

(** The message an update is answered with, if it is answered at all. *)
Definition reply (b : OTPBot) (u : Update) : option Msg :=
  match sent_by b u with
  | Send _ m :: _ => Some m
  | _ => None
  end.

Definition is_success (m : Msg) : bool :=
  match m with
  | MVerified _ _ _ | MVerifiedCurrent _ _ _ => true
  | _ => false
  end.

Definition is_generated (m : Msg) : bool :=
  match m with
  | MGenerated _ _ _ _ _ => true
  | _ => false
  end.

(** Whether update [u] comes from user [user_id] and is answered with a
    message satisfying [p]. *)
Definition answered (p : Msg → bool) (user_id : Z) (b : OTPBot) (u : Update) : bool :=
  bool_decide (tg_id (effective_user u) = user_id) &&
  match reply b u with
  | Some m => p m
  | None => false
  end.

(** The OTP records the live store holds for one user. *)
Definition otp_records_of (user_id : Z) (b : OTPBot) : list Otp :=
  (filter (λ kv, kv.1 = user_id) (map_to_list (otp_codes b))).*2.

(** The characters [random_choices] picks when the generator stands at
    draw [i]. *)
Fixpoint choices_from (gen : nat → nat) (population : pystr) (i k : nat) : pystr :=
  match k with
  | O => []
  | S k' => nth (gen i `mod` length population) population 0%N
            :: choices_from gen population (S i) k'
  end.

Definition add_draws (k : nat) (b : OTPBot) : OTPBot :=
  mkBot (users b) (otp_codes b) (saves b) (outbox b)
        (clock b) (ticks b) (rng b) (k + draws b).

(** The record [generate_otp_for_service] stores when the bot stands at [b]. *)
Definition fresh_otp (b : OTPBot) (service_id : pystr) (service_info : Service) : Otp :=
  mkOtp (choices_from (rng b) string_digits (draws b) 6)
        service_id (name service_info)
        (clock b (S (ticks b)))
        (clock b (ticks b) + timedelta_seconds (expiry service_info))
        false.

(** An ASCII decimal digit, ['0'] to ['9']. *)
Definition decimal_digit (c : N) : Prop := (48 ≤ c ≤ 57)%N.

(** The reading of "the text is exactly 6 numeric digits" on the received
    text itself, with no normalisation. *)
Definition exactly_six_digits (text : pystr) : bool :=
  isdigit text && bool_decide (length text = 6).

Definition disjoint_ranges (rs ss : list (N * N)) : bool :=
  forallb (λ r, forallb (λ s, (r.2 <? s.1)%N || (s.2 <? r.1)%N) ss) rs.

(** The steps of a successful verification, in the order both verifying
    handlers take them: the validity check reads the clock, the record is
    marked used, the counter is incremented, the users are saved, the record
    is deleted, and the answer [m] carries one more clock reading. *)
Definition verification_trace (b : OTPBot) (user_id : Z) (o : Otp) (u : User)
    (via : Via) (m : Z → Msg) : OTPBot :=
  let b1 := tick b in
  let b2 := set_otp_codes <[user_id := mark_used o]> b1 in
  let b3 := set_users <[user_id := bump_verified_count u]> b2 in
  let b4 := push_save (users b3, clock b3 (ticks b3)) (tick b3) in
  let b5 := set_otp_codes (delete user_id) b4 in
  push_sent (Send via (m (clock b5 (ticks b5)))) (tick b5).

(** The steps of a generation for a registered user, in the order
    [generate_otp_for_service] takes them: six draws, two clock readings (the
    expiry, then [created_at]), the record is stored, the counter is
    incremented, the users are saved, and the answer carries one more clock
    reading. *)
Definition generation_trace (b : OTPBot) (user_id : Z) (service_id : pystr)
    (service_info : Service) (u : User) : OTPBot :=
  let o := fresh_otp b service_id service_info in
  let b1 := tick (tick (add_draws 6 b)) in
  let b2 := set_otp_codes <[user_id := o]> b1 in
  let b3 := set_users <[user_id := bump_otp_count u]> b2 in
  let b4 := push_save (users b3, clock b3 (ticks b3)) (tick b3) in
  push_sent
    (Send EditMessage
       (MGenerated (name service_info) (code o)
          (expiry service_info `div` 60) (expiry service_info `mod` 60)
          (clock b4 (ticks b4))))
    (tick b4).

(** A transport call that reports neither a generation nor a success. *)
Definition quiet (s : Sent) : Prop :=
  match s with
  | Answer => True
  | Send _ m => is_generated m = false ∧ is_success m = false
  end.

(** What one update by user [user_id] does to the users, given the
    transport calls [l] it made: nothing, a registration, a generation or a
    successful verification. *)
Inductive users_effect (b b' : OTPBot) (user_id : Z) (l : list Sent) : Prop :=
  | effect_none :
      users b' = users b → Forall quiet l → users_effect b b' user_id l
  | effect_registered u :
      users b !! user_id = None →
      users b' = <[user_id := u]> (users b) →
      Forall quiet l → users_effect b b' user_id l
  | effect_generated u via m l' :
      users b !! user_id = Some u →
      users b' = <[user_id := bump_otp_count u]> (users b) →
      l = Send via m :: l' → is_generated m = true → is_success m = false →
      users_effect b b' user_id l
  | effect_verified u via m l' :
      users b !! user_id = Some u →
      users b' = <[user_id := bump_verified_count u]> (users b) →
      l = Send via m :: l' → is_generated m = false → is_success m = true →
      users_effect b b' user_id l.

(** Handler [h], run for user [user_id], has one of those effects. *)
Definition effect_of (h : M unit) (user_id : Z) : Prop :=
  ∀ b, ∃ l, outbox (h b).2 = l ++ outbox b ∧ users_effect b (h b).2 user_id l.

(** States reached by updates whose handler returned, none of them raising. *)
Inductive reachable_without_raise : OTPBot → Prop :=
  | quietly_init loaded clk gen : reachable_without_raise (init loaded clk gen)
  | quietly_step b u :
      reachable_without_raise b → (process_update u b).1 = Ok () →
      reachable_without_raise (step b u).

(** Every record of the live store has [used = False]. *)
Definition all_unused (b : OTPBot) : Prop :=
  ∀ user_id o, otp_codes b !! user_id = Some o → used o = false.

(** When handler [h], run for user [user_id], returns, the live store is
    unchanged, or lost that user's record, or got an unused record for that
    user. *)
Definition store_effect_of (h : M unit) (user_id : Z) : Prop :=
  ∀ b, (h b).1 = Ok () →
    otp_codes (h b).2 = otp_codes b
    ∨ otp_codes (h b).2 = delete user_id (otp_codes b)
    ∨ ∃ o, used o = false ∧ otp_codes (h b).2 = <[user_id := o]> (otp_codes b).

(** ** The bot as a transition system *)

(** [/start] and the "Back to Main" button both run [start]. *)
Definition is_start (u : Update) : bool :=
  match u with
  | Command _ CStart => true
  | Callback _ data => bool_decide (data = str "main")
  | _ => false
  end.

(** The payloads that reach [generate_otp_for_service]: none of the six
    fixed payloads starts with "gen_". *)
Definition is_gen (u : Update) : bool :=
  match u with
  | Callback _ data => startswith (str "gen_") data
  | _ => false
  end.

(** The record [start] creates for a user it has not seen. *)
Definition new_user (user : TgUser) (now : Z) : User :=
  mkUser (tg_first_name user) (tg_last_name user) (tg_username user) now 0 0.

(** Callback acknowledgements, the only transport calls that carry no
    message. *)
Definition acks (l : list Sent) : Prop := Forall (λ s, s = Answer) l.

Definition same_records (b b' : OTPBot) : Prop :=
  users b' = users b ∧ otp_codes b' = otp_codes b ∧ saves b' = saves b.

(** The code an update presents: a typed text presents its stripped form,
    which must be the stored code; a button presents the stored code
    itself. *)
Definition presents (u : Update) (o : Otp) : Prop :=
  match u with
  | Text _ text => strip text = code o
  | _ => True
  end.

(** Everything one update can do.  [transition u b r b' l]: handling [u] at
    [b] ends with result [r] in state [b'], having made the transport calls
    [l] (newest first). *)
Inductive transition (u : Update) (b : OTPBot) :
    Res unit → OTPBot → list Sent → Prop :=
  | t_silent b' l :
      same_records b b' → acks l →
      transition u b (Ok ()) b' l
  | t_reply b' via m l :
      same_records b b' → quiet (Send via m) → acks l →
      transition u b (Ok ()) b' (Send via m :: l)
  | t_register b' via m l :
      is_start u = true →
      users b !! tg_id (effective_user u) = None →
      users b' = <[tg_id (effective_user u) :=
                     new_user (effective_user u) (clock b (ticks b))]> (users b) →
      otp_codes b' = otp_codes b →
      saves b' = (users b', clock b (S (ticks b))) :: saves b →
      quiet (Send via m) → acks l →
      transition u b (Ok ()) b' (Send via m :: l)
  | t_unknown_service b' service_id l :
      is_gen u = true →
      services !! service_id = None →
      same_records b b' → acks l →
      transition u b (Raise (KeyError_service service_id)) b' l
  | t_unknown_user b' l :
      users b !! tg_id (effective_user u) = None →
      same_records b b' → acks l →
      transition u b (Raise (KeyError_user (tg_id (effective_user u)))) b' l
  | t_generated b' service_id service_info usr via m l :
      is_gen u = true →
      services !! service_id = Some service_info →
      users b !! tg_id (effective_user u) = Some usr →
      users b' = <[tg_id (effective_user u) := bump_otp_count usr]> (users b) →
      otp_codes b' = <[tg_id (effective_user u) :=
                         fresh_otp b service_id service_info]> (otp_codes b) →
      saves b' = (users b', clock b (S (S (ticks b)))) :: saves b →
      is_generated m = true → is_success m = false → acks l →
      transition u b (Ok ()) b' (Send via m :: l)
  | t_generated_unregistered b' service_id service_info l :
      is_gen u = true →
      services !! service_id = Some service_info →
      users b !! tg_id (effective_user u) = None →
      users b' = users b → saves b' = saves b →
      otp_codes b' = <[tg_id (effective_user u) :=
                         fresh_otp b service_id service_info]> (otp_codes b) →
      acks l →
      transition u b (Raise (KeyError_user (tg_id (effective_user u)))) b' l
  | t_expired b' o via m l :
      otp_codes b !! tg_id (effective_user u) = Some o →
      presents u o →
      (clock b (ticks b) > expires_at o)%Z →
      users b' = users b → saves b' = saves b →
      otp_codes b' = delete (tg_id (effective_user u)) (otp_codes b) →
      quiet (Send via m) → acks l →
      transition u b (Ok ()) b' (Send via m :: l)
  | t_verified b' o usr via m l :
      otp_codes b !! tg_id (effective_user u) = Some o →
      presents u o →
      (clock b (ticks b) ≤ expires_at o)%Z →
      users b !! tg_id (effective_user u) = Some usr →
      users b' = <[tg_id (effective_user u) := bump_verified_count usr]> (users b) →
      otp_codes b' = delete (tg_id (effective_user u)) (otp_codes b) →
      saves b' = (users b', clock b (S (ticks b))) :: saves b →
      is_success m = true → is_generated m = false → acks l →
      transition u b (Ok ()) b' (Send via m :: l)
  | t_verify_unregistered b' o l :
      otp_codes b !! tg_id (effective_user u) = Some o →
      presents u o →
      (clock b (ticks b) ≤ expires_at o)%Z →
      users b !! tg_id (effective_user u) = None →
      users b' = users b → saves b' = saves b →
      otp_codes b' = <[tg_id (effective_user u) := mark_used o]> (otp_codes b) →
      acks l →
      transition u b (Raise (KeyError_user (tg_id (effective_user u)))) b' l.

(** Handler [h] is a way of handling update [u]. *)
Definition handles (u : Update) (h : M unit) : Prop :=
  ∀ b, ∃ l, outbox (h b).2 = l ++ outbox b ∧ transition u b (h b).1 (h b).2 l.

(** Two user records that differ at most in their counters. *)
Definition same_profile (u u' : User) : Prop :=
  first_name u' = first_name u ∧ last_name u' = last_name u
  ∧ username u' = username u ∧ registered_at u' = registered_at u.

(** A record as [generate_otp_for_service] makes them: a code of six decimal
    digits for a configured service, carrying that service's name. *)
Definition well_formed_otp (o : Otp) : Prop :=
  length (code o) = 6 ∧ Forall decimal_digit (code o)
  ∧ ∃ service_info, services !! service o = Some service_info
                    ∧ service_name o = name service_info.

(** The users last handed to [save_data], or the loaded ones when nothing
    was saved yet. *)
Definition saved_users (loaded : gmap Z User) (b : OTPBot) : gmap Z User :=
  match saves b with
  | s :: _ => s.1
  | [] => loaded
  end.

(** Update [v] is not a service button pressed by user [user_id]. *)
Definition no_generation_by (user_id : Z) (v : Update) : Prop :=
  ¬ (is_gen v = true ∧ tg_id (effective_user v) = user_id).

(** Bob, a second user. *)
Definition bob : TgUser := mkTgUser 8 (str "Bob") None (Some (str "bob")).

(** ** Scenarios *)

Definition alice : TgUser := mkTgUser 7 (str "Al") None None.

(** A clock that advances one microsecond per reading and a generator that
    draws 0, 1, 2, ... : the first code is "012345". *)
Definition clk_us (n : nat) : Z := Z.of_nat n.
Definition gen_id (n : nat) : nat := n.

(** A clock that stands at 0 for six readings and then at 130 s, and a
    generator whose first code is "000111". *)
Definition clk_jump (n : nat) : Z := if (n <? 6)%nat then 0%Z else 130000000%Z.
Definition gen_000111 (n : nat) : nat := if (n <? 3)%nat then 0 else 1.

(** /start, then the "2FA Login" button. *)
Definition live_bot : OTPBot :=
  run_updates (init ∅ clk_us gen_id)
    [Command alice CStart; Callback alice (str "gen_login_2fa")].

(** /generate and the "2FA Login" button, without /start before. *)
Definition unregistered_bot : OTPBot :=
  run_updates (init ∅ clk_us gen_id)
    [Command alice CGenerate; Callback alice (str "gen_login_2fa")].

(** ... and then the "Verify This OTP" button. *)
Definition used_bot : OTPBot :=
  step unregistered_bot (Callback alice (str "verify_current")).

(** /start, then the "Transaction Verification" button at time 0; the next
    clock reading is 130 s, past the 120 s expiry. *)
Definition expired_bot : OTPBot :=
  run_updates (init ∅ clk_jump gen_000111)
    [Command alice CStart; Callback alice (str "gen_transaction_verify")].

(** A clock whose seventh reading is exactly the expiry of the OTP generated
    at the third one: /start, then the "2FA Login" button. *)
Definition clk_instant (n : nat) : Z :=
  if (n <? 6)%nat then Z.of_nat n else 180000002%Z.

Definition instant_bot : OTPBot :=
  run_updates (init ∅ clk_instant gen_id)
    [Command alice CStart; Callback alice (str "gen_login_2fa")].

(** The service buttons of the menu, one per configured service. *)
Definition service_buttons : list pystr :=
  (λ kv, str "gen_" ++ kv.1) <$> services_items.

(** The keyboard [show_services_for_generation] offers: the service buttons,
    then "Back to Main". *)
Definition offered_buttons : list pystr := service_buttons ++ [str "main"].

(** Below this many microseconds left, [int(time_left)] is exact. *)
Definition exact_seconds_bound : Z := (2 ^ 34 * 1000000)%Z.

(** The records those scenarios hold for Alice. *)
Definition otp_012345 : Otp :=
  mkOtp (str "012345") (str "login_2fa") (str "2FA Login") 3 180000002 false.

Definition otp_000111 : Otp :=
  mkOtp (str "000111") (str "transaction_verify")
        (str "Transaction Verification") 0 120000000 false.

Definition al_after_generate : User := mkUser (str "Al") None None 0 1 0.

(** * Properties *)

(** ** Strings *)

Lemma in_ranges_disjoint rs ss c :
  disjoint_ranges rs ss = true → in_ranges rs c = true → in_ranges ss c = false.
Proof.
  unfold disjoint_ranges, in_ranges. intros Hd Hr.
  apply existsb_exists in Hr as [r [Hin Hr]].
  rewrite forallb_forall in Hd. specialize (Hd r Hin).
  rewrite forallb_forall in Hd.
  apply not_true_is_false. intros Hs.
  apply existsb_exists in Hs as [s [Hin' Hs]].
  specialize (Hd s Hin').
  apply andb_prop in Hr as [?%N.leb_le ?%N.leb_le].
  apply andb_prop in Hs as [?%N.leb_le ?%N.leb_le].
  apply orb_prop in Hd as [?%N.ltb_lt | ?%N.ltb_lt]; lia.
Qed.

(** No character is both a digit and white space. *)
Lemma digit_not_space c : isdigit_char c = true → isspace_char c = false.
Proof. apply in_ranges_disjoint. vm_compute. reflexivity. Qed.

Lemma isdigit_forallb s : isdigit s = true → forallb isdigit_char s = true.
Proof. destruct s; [done|]. auto. Qed.

Lemma lstrip_digits s : forallb isdigit_char s = true → lstrip s = s.
Proof.
  destruct s as [|c s]; [done|]. simpl. intros [H _]%andb_prop.
  by rewrite (digit_not_space c H).
Qed.

(** [strip] leaves a string of digits alone. *)
Lemma strip_digits s : isdigit s = true → strip s = s.
Proof.
  intros Hall%isdigit_forallb.
  unfold strip, rstrip. rewrite (lstrip_digits s Hall).
  rewrite lstrip_digits; [apply reverse_involutive|].
  rewrite forallb_forall in Hall |- *. intros x Hx. apply Hall.
  apply list_elem_of_In, elem_of_reverse, list_elem_of_In, Hx.
Qed.

Lemma decimal_digit_isdigit c : decimal_digit c → isdigit_char c = true.
Proof.
  intros [H1 H2]. unfold isdigit_char, in_ranges, digit_ranges.
  cbn [existsb fst snd]. apply orb_true_iff. left.
  apply andb_true_iff. split; apply N.leb_le; lia.
Qed.

(** ** Running the primitives *)

Ltac mrun :=
  cbv [mbind M_bind mret M_ret raise gets modify send datetime_now
       user_record otp_record del_otp update_user set_used save_data];
  cbn.

Lemma random_choices_run population k b :
  random_choices population k b
  = (Ok (choices_from (rng b) population (draws b) k), add_draws k b).
Proof.
  revert b. induction k as [|k IH]; intros b.
  - by destruct b.
  - cbn [random_choices choices_from].
    unfold mbind, M_bind, random_below. rewrite IH. cbn.
    unfold add_draws, draw. cbn. do 2 f_equal. f_equal. lia.
Qed.

Lemma choices_from_length gen population i k :
  length (choices_from gen population i k) = k.
Proof. revert i. induction k; intros; cbn; auto. Qed.

Lemma choices_from_digits gen i k :
  Forall decimal_digit (choices_from gen string_digits i k).
Proof.
  revert i. induction k as [|k IH]; intros i; cbn [choices_from]; constructor; auto.
  assert (Hlt : gen i `mod` length string_digits < 10)
    by (apply Nat.mod_upper_bound; discriminate).
  revert Hlt. generalize (gen i `mod` length string_digits). intros n Hn.
  unfold decimal_digit.
  do 10 (destruct n as [|n]; [cbn; lia|]). lia.
Qed.

(** ** [is_otp_valid], case by case *)

Section is_otp_valid.
Variables (b : OTPBot) (user_id : Z).

Lemma is_otp_valid_absent otp :
  otp_codes b !! user_id = None →
  is_otp_valid user_id otp b = (Ok false, b).
Proof. intros Hl. unfold is_otp_valid. mrun. by rewrite Hl. Qed.

Lemma is_otp_valid_mismatch o otp :
  otp_codes b !! user_id = Some o → code o ≠ otp →
  is_otp_valid user_id otp b = (Ok false, b).
Proof.
  intros Hl Hne. unfold is_otp_valid. mrun. rewrite Hl.
  by rewrite bool_decide_true.
Qed.

Lemma is_otp_valid_expired o :
  otp_codes b !! user_id = Some o →
  (clock b (ticks b) > expires_at o)%Z →
  is_otp_valid user_id (code o) b
  = (Ok false, set_otp_codes (delete user_id) (tick b)).
Proof.
  intros Hl Hlate. unfold is_otp_valid. mrun. rewrite Hl.
  rewrite bool_decide_false by naive_solver.
  rewrite bool_decide_true by done. mrun. by rewrite Hl.
Qed.

Lemma is_otp_valid_live o :
  otp_codes b !! user_id = Some o →
  (clock b (ticks b) ≤ expires_at o)%Z →
  is_otp_valid user_id (code o) b = (Ok true, tick b).
Proof.
  intros Hl Hlive. unfold is_otp_valid. mrun. rewrite Hl.
  rewrite bool_decide_false by naive_solver.
  by rewrite bool_decide_false by lia.
Qed.
End is_otp_valid.

(** ** [handle_text_message], case by case *)

Section handle_text_message.
Variables (b : OTPBot) (user_id : Z) (text : pystr).

Lemma text_not_understood :
  isdigit (strip text) && bool_decide (length (strip text) = 6) = false →
  handle_text_message user_id text b
  = (Ok (), push_sent (Send ReplyText MNotUnderstood) b).
Proof. intros H. unfold handle_text_message. by rewrite H. Qed.

Hypothesis Hdigits : isdigit (strip text) = true.
Hypothesis Hlen : length (strip text) = 6.

Lemma text_no_active_otp :
  otp_codes b !! user_id = None →
  handle_text_message user_id text b
  = (Ok (), push_sent (Send ReplyText MNoActiveOtp) b).
Proof.
  intros Hl. unfold handle_text_message.
  rewrite Hdigits, bool_decide_true by done. mrun.
  rewrite bool_decide_false; [done|]. rewrite Hl. by intros [? ?].
Qed.

Lemma text_wrong_code o :
  otp_codes b !! user_id = Some o → strip text ≠ code o →
  handle_text_message user_id text b
  = (Ok (), push_sent (Send ReplyText MInvalidOrExpired) b).
Proof.
  intros Hl Hne. unfold handle_text_message.
  rewrite Hdigits, bool_decide_true by done. mrun.
  rewrite bool_decide_true by (rewrite Hl; eauto).
  by rewrite (is_otp_valid_mismatch _ _ o).
Qed.

Lemma text_expired_code o :
  otp_codes b !! user_id = Some o → strip text = code o →
  (clock b (ticks b) > expires_at o)%Z →
  handle_text_message user_id text b
  = (Ok (), push_sent (Send ReplyText MInvalidOrExpired)
              (set_otp_codes (delete user_id) (tick b))).
Proof.
  intros Hl Heq Hlate. unfold handle_text_message.
  rewrite Hdigits, bool_decide_true by done. mrun.
  rewrite bool_decide_true by (rewrite Hl; eauto).
  by rewrite Heq, (is_otp_valid_expired _ _ o).
Qed.

Lemma text_verified o u :
  otp_codes b !! user_id = Some o → strip text = code o →
  (clock b (ticks b) ≤ expires_at o)%Z →
  users b !! user_id = Some u →
  handle_text_message user_id text b
  = (Ok (), verification_trace b user_id o u ReplyText
              (MVerified (service_name o) (code o))).
Proof.
  intros Hl Heq Hlive Hu. unfold handle_text_message.
  rewrite Hdigits, bool_decide_true by done. mrun.
  rewrite bool_decide_true by (rewrite Hl; eauto).
  rewrite Heq, (is_otp_valid_live _ _ o) by done.
  repeat (mrun; first [rewrite Hl | rewrite Hu | rewrite lookup_insert_eq]).
  done.
Qed.

Lemma text_unregistered o :
  otp_codes b !! user_id = Some o → strip text = code o →
  (clock b (ticks b) ≤ expires_at o)%Z →
  users b !! user_id = None →
  handle_text_message user_id text b
  = (Raise (KeyError_user user_id),
     set_otp_codes <[user_id := mark_used o]> (tick b)).
Proof.
  intros Hl Heq Hlive Hu. unfold handle_text_message.
  rewrite Hdigits, bool_decide_true by done. mrun.
  rewrite bool_decide_true by (rewrite Hl; eauto).
  rewrite Heq, (is_otp_valid_live _ _ o) by done.
  repeat (mrun; first [rewrite Hl | rewrite Hu]).
  done.
Qed.
End handle_text_message.

(** ** [verify_current_otp], case by case *)

Section verify_current_otp.
Variables (b : OTPBot) (user_id : Z).

Lemma current_no_otp :
  otp_codes b !! user_id = None →
  verify_current_otp user_id b
  = (Ok (), push_sent (Send EditMessage MNoOtpToVerify) b).
Proof. intros Hl. unfold verify_current_otp. mrun. by rewrite Hl. Qed.

Lemma current_expired o :
  otp_codes b !! user_id = Some o →
  (clock b (ticks b) > expires_at o)%Z →
  verify_current_otp user_id b
  = (Ok (), push_sent (Send EditMessage (MFailedExpired (service_name o) (code o)))
              (set_otp_codes (delete user_id) (tick b))).
Proof.
  intros Hl Hlate. unfold verify_current_otp. mrun. rewrite Hl.
  by rewrite (is_otp_valid_expired _ _ o).
Qed.

Lemma current_verified o u :
  otp_codes b !! user_id = Some o →
  (clock b (ticks b) ≤ expires_at o)%Z →
  users b !! user_id = Some u →
  verify_current_otp user_id b
  = (Ok (), verification_trace b user_id o u EditMessage
              (MVerifiedCurrent (service_name o) (code o))).
Proof.
  intros Hl Hlive Hu. unfold verify_current_otp. mrun. rewrite Hl.
  rewrite (is_otp_valid_live _ _ o) by done.
  repeat (mrun; first [rewrite Hl | rewrite Hu | rewrite lookup_insert_eq]).
  done.
Qed.

Lemma current_unregistered o :
  otp_codes b !! user_id = Some o →
  (clock b (ticks b) ≤ expires_at o)%Z →
  users b !! user_id = None →
  verify_current_otp user_id b
  = (Raise (KeyError_user user_id),
     set_otp_codes <[user_id := mark_used o]> (tick b)).
Proof.
  intros Hl Hlive Hu. unfold verify_current_otp. mrun. rewrite Hl.
  rewrite (is_otp_valid_live _ _ o) by done.
  repeat (mrun; first [rewrite Hl | rewrite Hu]).
  done.
Qed.
End verify_current_otp.

(** What a completed verification leaves behind. *)
Lemma verification_trace_fields b user_id o u via m :
  let b' := verification_trace b user_id o u via m in
  otp_codes b' = delete user_id (otp_codes b)
  ∧ users b' = <[user_id := bump_verified_count u]> (users b)
  ∧ saves b' = (users b', clock b (S (ticks b))) :: saves b
  ∧ outbox b' = Send via (m (clock b (S (S (ticks b))))) :: outbox b.
Proof.
  cbn. split_and!; try done. apply delete_insert_eq.
Qed.

(** ** Dispatch and replies *)

Lemma sent_by_app b u l :
  outbox (step b u) = l ++ outbox b → sent_by b u = l.
Proof.
  intros H. unfold sent_by. rewrite H, length_app, Nat.add_sub.
  apply take_app_length.
Qed.

Lemma reply_pushed b u via m l :
  outbox (step b u) = Send via m :: l ++ outbox b → reply b u = Some m.
Proof.
  intros H. unfold reply. by rewrite (sent_by_app b u (Send via m :: l)).
Qed.

Lemma reply_silent b u l :
  outbox (step b u) = l ++ outbox b → Forall (λ s, s = Answer) l → reply b u = None.
Proof.
  intros H Hl. unfold reply. rewrite (sent_by_app b u l H).
  destruct Hl as [|? ? ->]; done.
Qed.

Lemma button_verify_current user b :
  button_callback user (str "verify_current") b
  = verify_current_otp (tg_id user) (push_sent Answer b).
Proof. reflexivity. Qed.

Lemma button_stats user b :
  button_callback user (str "stats") b
  = show_stats (tg_id user) EditMessage (push_sent Answer b).
Proof. reflexivity. Qed.

Lemma button_gen user service_id b :
  button_callback user (str "gen_" ++ service_id) b
  = generate_otp_for_service (tg_id user) service_id (push_sent Answer b).
Proof.
  unfold button_callback. mrun.
  repeat (rewrite bool_decide_false by (vm_compute; discriminate)).
  reflexivity.
Qed.

(** ** Verification outcomes *)

(** C7. For a user with a live, unexpired OTP, a text of exactly six digits
    that differs from the stored code is answered with the "Invalid or
    Expired OTP" reply, and nothing but the outbox changes: the record stays
    in the live store as it was, no counter moves and nothing is saved. *)
Theorem wrong_code_leaves_otp_untouched b user o text :
  otp_codes b !! tg_id user = Some o →
  (clock b (ticks b) ≤ expires_at o)%Z →
  isdigit text = true → length text = 6 → text ≠ code o →
  process_update (Text user text) b
  = (Ok (), push_sent (Send ReplyText MInvalidOrExpired) b)
  ∧ reply b (Text user text) = Some MInvalidOrExpired
  ∧ otp_codes (step b (Text user text)) !! tg_id user = Some o
  ∧ otp_codes (step b (Text user text)) = otp_codes b
  ∧ users (step b (Text user text)) = users b
  ∧ saves (step b (Text user text)) = saves b.
Proof.
  intros Hl _ Hd Hlen Hne.
  assert (Hrun : process_update (Text user text) b
                 = (Ok (), push_sent (Send ReplyText MInvalidOrExpired) b)).
  { cbn [process_update]. apply (text_wrong_code b (tg_id user) text) with o.
    - by rewrite strip_digits.
    - by rewrite strip_digits.
    - done.
    - by rewrite strip_digits. }
  split; [exact Hrun|].
  split.
  { apply (reply_pushed _ _ ReplyText _ []). unfold step. by rewrite Hrun. }
  unfold step. rewrite Hrun. by cbn.
Qed.

Lemma wrong_code_leaves_otp_untouched_witness :
  reply live_bot (Text alice (str "012346")) = Some MInvalidOrExpired
  ∧ otp_codes (step live_bot (Text alice (str "012346"))) !! 7%Z = Some otp_012345.
Proof.
  pose proof (wrong_code_leaves_otp_untouched live_bot alice otp_012345
                (str "012346")) as H.
  destruct H as (_ & Hr & Hk & _).
  - vm_compute. reflexivity.
  - vm_compute. discriminate.
  - vm_compute. reflexivity.
  - vm_compute. reflexivity.
  - vm_compute. discriminate.
  - split; [exact Hr | exact Hk].
Defined.

(** C1 (amended). For a user whose live OTP has expired, an attempt that
    presents the stored code is refused and deletes the record: the typed
    code gets the "Invalid or Expired OTP" reply, the verify-current button
    the "OTP has expired" reply.  The next attempt, typed or by button, is
    answered "No Active OTP" / "No OTP to verify". *)
Theorem expired_code_is_rejected_and_deleted b user o text text' :
  otp_codes b !! tg_id user = Some o →
  (clock b (ticks b) > expires_at o)%Z →
  strip text = code o →
  isdigit (strip text) = true → length (strip text) = 6 →
  isdigit (strip text') = true → length (strip text') = 6 →
  let typed := Text user text in
  let pressed := Callback user (str "verify_current") in
  (reply b typed = Some MInvalidOrExpired
   ∧ otp_codes (step b typed) = delete (tg_id user) (otp_codes b)
   ∧ users (step b typed) = users b
   ∧ reply (step b typed) (Text user text') = Some MNoActiveOtp
   ∧ reply (step b typed) pressed = Some MNoOtpToVerify)
  ∧ (reply b pressed = Some (MFailedExpired (service_name o) (code o))
     ∧ otp_codes (step b pressed) = delete (tg_id user) (otp_codes b)
     ∧ users (step b pressed) = users b
     ∧ reply (step b pressed) (Text user text') = Some MNoActiveOtp
     ∧ reply (step b pressed) pressed = Some MNoOtpToVerify).
Proof.
  intros Hl Hlate Heq Hd Hlen Hd' Hlen' typed pressed.
  assert (Htyped : process_update typed b
            = (Ok (), push_sent (Send ReplyText MInvalidOrExpired)
                        (set_otp_codes (delete (tg_id user)) (tick b))))
    by (by apply (text_expired_code b (tg_id user) text Hd Hlen o)).
  assert (Hpressed : process_update pressed b
            = (Ok (), push_sent (Send EditMessage
                                   (MFailedExpired (service_name o) (code o)))
                        (set_otp_codes (delete (tg_id user))
                           (tick (push_sent Answer b))))).
  { unfold pressed. cbn [process_update]. rewrite button_verify_current.
    by apply current_expired. }
  assert (Hnext : ∀ b1, otp_codes b1 !! tg_id user = None →
            reply b1 (Text user text') = Some MNoActiveOtp
            ∧ reply b1 pressed = Some MNoOtpToVerify).
  { intros b1 Hnone. split.
    - apply (reply_pushed _ _ ReplyText _ []). unfold step. cbn [process_update].
      by rewrite (text_no_active_otp b1 (tg_id user) text' Hd' Hlen' Hnone).
    - apply (reply_pushed _ _ EditMessage _ [Answer]). unfold step, pressed.
      cbn [process_update]. rewrite button_verify_current.
      by rewrite current_no_otp. }
  split.
  - split; [|split; [|split]].
    + apply (reply_pushed _ _ ReplyText _ []). unfold step. by rewrite Htyped.
    + unfold step. by rewrite Htyped.
    + unfold step. by rewrite Htyped.
    + apply Hnext. unfold step. rewrite Htyped. cbn. apply lookup_delete_eq.
  - split; [|split; [|split]].
    + apply (reply_pushed _ _ EditMessage _ [Answer]). unfold step. by rewrite Hpressed.
    + unfold step. by rewrite Hpressed.
    + unfold step. by rewrite Hpressed.
    + apply Hnext. unfold step. rewrite Hpressed. cbn. apply lookup_delete_eq.
Qed.

Lemma expired_code_is_rejected_and_deleted_witness :
  reply expired_bot (Text alice (str "000111")) = Some MInvalidOrExpired
  ∧ reply (step expired_bot (Text alice (str "000111")))
          (Text alice (str "000111")) = Some MNoActiveOtp.
Proof.
  pose proof (expired_code_is_rejected_and_deleted expired_bot alice otp_000111
                (str "000111") (str "000111")) as H.
  cbv zeta in H.
  destruct H as ((Hr & _ & _ & Hn & _) & _).
  - vm_compute. reflexivity.
  - vm_compute. reflexivity.
  - vm_compute. reflexivity.
  - vm_compute. reflexivity.
  - vm_compute. reflexivity.
  - vm_compute. reflexivity.
  - vm_compute. reflexivity.
  - split; [exact Hr | exact Hn].
Defined.

(** C1, as stated, fails: the code is compared before the expiry.  With the
    OTP "000111" expired (clock at 130 s, expiry at 120 s), the wrong code
    "000112" is refused without deleting the record, so the attempt after it
    is answered "Invalid or Expired OTP" again, not "No Active OTP". *)
Lemma expired_wrong_code_keeps_record :
  otp_codes expired_bot !! 7%Z = Some otp_000111
  ∧ (clock expired_bot (ticks expired_bot) > expires_at otp_000111)%Z
  ∧ reply expired_bot (Text alice (str "000112")) = Some MInvalidOrExpired
  ∧ otp_codes (step expired_bot (Text alice (str "000112"))) !! 7%Z
    = Some otp_000111
  ∧ reply (step expired_bot (Text alice (str "000112")))
          (Text alice (str "000112")) = Some MInvalidOrExpired.
Proof. vm_compute. repeat split; reflexivity. Qed.

Lemma lookup_verification_trace b user_id o u via m :
  otp_codes (verification_trace b user_id o u via m) !! user_id = None.
Proof. cbn. rewrite delete_insert_eq. apply lookup_delete_eq. Qed.

(** For a registered user with a live, unexpired OTP, presenting the stored
    code once (typed, or with the verify-current button) succeeds: the
    handler marks the record used, increments [verified_count], saves the
    users and deletes the record, in that order, and answers with the
    success message.  The attempt right after it is answered "No Active
    OTP" / "No OTP to verify".  This is what the code does of C3. *)
Theorem correct_code_verifies_once b user o u text :
  otp_codes b !! tg_id user = Some o →
  users b !! tg_id user = Some u →
  (clock b (ticks b) ≤ expires_at o)%Z →
  strip text = code o →
  isdigit (strip text) = true → length (strip text) = 6 →
  let typed := Text user text in
  let pressed := Callback user (str "verify_current") in
  (process_update typed b
   = (Ok (), verification_trace b (tg_id user) o u ReplyText
               (MVerified (service_name o) (code o)))
   ∧ reply b typed
     = Some (MVerified (service_name o) (code o) (clock b (S (S (ticks b)))))
   ∧ otp_codes (step b typed) = delete (tg_id user) (otp_codes b)
   ∧ users (step b typed) = <[tg_id user := bump_verified_count u]> (users b)
   ∧ saves (step b typed)
     = (users (step b typed), clock b (S (ticks b))) :: saves b
   ∧ reply (step b typed) typed = Some MNoActiveOtp
   ∧ reply (step b typed) pressed = Some MNoOtpToVerify)
  ∧ (process_update pressed b
     = (Ok (), verification_trace (push_sent Answer b) (tg_id user) o u EditMessage
                 (MVerifiedCurrent (service_name o) (code o)))
     ∧ reply b pressed
       = Some (MVerifiedCurrent (service_name o) (code o)
                 (clock b (S (S (ticks b)))))
     ∧ otp_codes (step b pressed) = delete (tg_id user) (otp_codes b)
     ∧ users (step b pressed) = <[tg_id user := bump_verified_count u]> (users b)
     ∧ saves (step b pressed)
       = (users (step b pressed), clock b (S (ticks b))) :: saves b
     ∧ reply (step b pressed) typed = Some MNoActiveOtp
     ∧ reply (step b pressed) pressed = Some MNoOtpToVerify).
Proof.
  intros Hl Hu Hlive Heq Hd Hlen typed pressed.
  assert (Htyped : process_update typed b
            = (Ok (), verification_trace b (tg_id user) o u ReplyText
                        (MVerified (service_name o) (code o))))
    by (by apply (text_verified b (tg_id user) text Hd Hlen)).
  assert (Hpressed : process_update pressed b
            = (Ok (), verification_trace (push_sent Answer b) (tg_id user) o u
                        EditMessage (MVerifiedCurrent (service_name o) (code o)))).
  { unfold pressed. cbn [process_update]. rewrite button_verify_current.
    by apply current_verified. }
  assert (Hnext : ∀ b1, otp_codes b1 !! tg_id user = None →
            reply b1 typed = Some MNoActiveOtp
            ∧ reply b1 pressed = Some MNoOtpToVerify).
  { intros b1 Hnone. split.
    - apply (reply_pushed _ _ ReplyText _ []). unfold step, typed.
      cbn [process_update].
      by rewrite (text_no_active_otp b1 (tg_id user) text Hd Hlen Hnone).
    - apply (reply_pushed _ _ EditMessage _ [Answer]). unfold step, pressed.
      cbn [process_update]. rewrite button_verify_current.
      by rewrite current_no_otp. }
  split.
  - split; [exact Htyped|].
    split. { apply (reply_pushed _ _ ReplyText _ []). unfold step. by rewrite Htyped. }
    split. { unfold step. rewrite Htyped. cbn. apply delete_insert_eq. }
    split. { unfold step. by rewrite Htyped. }
    split. { unfold step. by rewrite Htyped. }
    apply Hnext. unfold step. rewrite Htyped. apply lookup_verification_trace.
  - split; [exact Hpressed|].
    split. { apply (reply_pushed _ _ EditMessage _ [Answer]). unfold step. by rewrite Hpressed. }
    split. { unfold step. rewrite Hpressed. cbn. apply delete_insert_eq. }
    split. { unfold step. by rewrite Hpressed. }
    split. { unfold step. by rewrite Hpressed. }
    apply Hnext. unfold step. rewrite Hpressed. apply lookup_verification_trace.
Qed.

Lemma correct_code_verifies_once_witness :
  reply live_bot (Text alice (str "012345"))
  = Some (MVerified (str "2FA Login") (str "012345") 8)
  ∧ reply (step live_bot (Text alice (str "012345")))
          (Text alice (str "012345")) = Some MNoActiveOtp.
Proof.
  pose proof (correct_code_verifies_once live_bot alice otp_012345
                al_after_generate (str "012345")) as H.
  cbv zeta in H.
  destruct H as ((_ & Hr & _ & _ & _ & Hn & _) & _).
  - vm_compute. reflexivity.
  - vm_compute. reflexivity.
  - vm_compute. discriminate.
  - vm_compute. reflexivity.
  - vm_compute. reflexivity.
  - vm_compute. reflexivity.
  - split; [exact Hr | exact Hn].
Defined.

(** C3 fails on the code for a user who never sent /start.  The service
    buttons store an OTP for that user too; it is live and unexpired, and
    presenting its code does not yield success: the handler marks the record
    used and raises [KeyError] at the counter, before the save and the
    deletion.  No message is sent and the record stays in the live store. *)
Lemma correct_code_unregistered_user_raises :
  otp_codes unregistered_bot !! 7%Z
  = Some (mkOtp (str "012345") (str "login_2fa") (str "2FA Login") 1 180000000 false)
  ∧ (clock unregistered_bot (ticks unregistered_bot) ≤ 180000000)%Z
  ∧ (process_update (Text alice (str "012345")) unregistered_bot).1
    = Raise (KeyError_user 7)
  ∧ reply unregistered_bot (Text alice (str "012345")) = None
  ∧ is_Some (otp_codes (step unregistered_bot (Text alice (str "012345"))) !! 7%Z).
Proof.
  split_and!; try (vm_compute; reflexivity).
  - vm_compute. discriminate.
  - vm_compute. eauto.
Qed.

(** ** Which texts count as an attempt *)

(** A text that is six digits once stripped is never answered with the
    guidance message: it is checked against the user's record. *)
Lemma six_digits_reply b user text :
  isdigit (strip text) = true → length (strip text) = 6 →
  match otp_codes b !! tg_id user with
  | None => reply b (Text user text) = Some MNoActiveOtp
  | Some o =>
      if bool_decide (strip text = code o) then
        if bool_decide (clock b (ticks b) > expires_at o)%Z then
          reply b (Text user text) = Some MInvalidOrExpired
        else
          match users b !! tg_id user with
          | Some _ =>
              reply b (Text user text)
              = Some (MVerified (service_name o) (code o)
                        (clock b (S (S (ticks b)))))
          | None => reply b (Text user text) = None
          end
      else reply b (Text user text) = Some MInvalidOrExpired
  end.
Proof.
  intros Hd Hlen.
  destruct (otp_codes b !! tg_id user) as [o|] eqn:Hl.
  - case_bool_decide as Heq.
    + case_bool_decide as Hlate.
      * apply (reply_pushed _ _ ReplyText _ []). unfold step. cbn [process_update].
        by rewrite (text_expired_code b (tg_id user) text Hd Hlen o).
      * destruct (users b !! tg_id user) as [u|] eqn:Hu.
        -- apply (reply_pushed _ _ ReplyText _ []). unfold step.
           cbn [process_update].
           by rewrite (text_verified b (tg_id user) text Hd Hlen o u) by (done || lia).
        -- apply (reply_silent _ _ []); [|constructor]. unfold step.
           cbn [process_update].
           by rewrite (text_unregistered b (tg_id user) text Hd Hlen o) by (done || lia).
    + apply (reply_pushed _ _ ReplyText _ []). unfold step. cbn [process_update].
      by rewrite (text_wrong_code b (tg_id user) text Hd Hlen o).
  - apply (reply_pushed _ _ ReplyText _ []). unfold step. cbn [process_update].
    by rewrite (text_no_active_otp b (tg_id user) text Hd Hlen).
Qed.

(** C8 (amended). A free text that arrives as a new message is taken as a
    verification attempt exactly when, after [strip] removed the white space
    around it, it consists of six digit characters in the sense of
    [str.isdigit].  Such a text is checked against the user's record in the
    live store: without a record it is answered "No Active OTP"; when it
    differs from the stored code it is answered "Invalid or Expired OTP" and
    nothing else changes; when it equals the stored code and the clock is
    past the expiry it gets the same answer and the record is deleted; when
    it equals the stored code in time, the verification steps run for a
    registered user, and for an unregistered one the record is marked used
    and [KeyError] is raised.  Every other text is answered with the
    guidance message and changes nothing else, whatever OTP the user holds;
    "12345" and "abcdef" are such texts. *)
Theorem text_is_attempt_iff_six_digits_after_strip b user text :
  (reply b (Text user text) = Some MNotUnderstood
   ↔ isdigit (strip text) && bool_decide (length (strip text) = 6) = false)
  ∧ (isdigit (strip text) && bool_decide (length (strip text) = 6) = false →
     process_update (Text user text) b
     = (Ok (), push_sent (Send ReplyText MNotUnderstood) b))
  ∧ (isdigit (strip text) && bool_decide (length (strip text) = 6) = true →
     match otp_codes b !! tg_id user with
     | None =>
         process_update (Text user text) b
         = (Ok (), push_sent (Send ReplyText MNoActiveOtp) b)
     | Some o =>
         if bool_decide (strip text = code o) then
           if bool_decide (clock b (ticks b) > expires_at o)%Z then
             process_update (Text user text) b
             = (Ok (), push_sent (Send ReplyText MInvalidOrExpired)
                         (set_otp_codes (delete (tg_id user)) (tick b)))
           else
             match users b !! tg_id user with
             | Some usr =>
                 process_update (Text user text) b
                 = (Ok (), verification_trace b (tg_id user) o usr ReplyText
                             (MVerified (service_name o) (code o)))
             | None =>
                 process_update (Text user text) b
                 = (Raise (KeyError_user (tg_id user)),
                    set_otp_codes <[tg_id user := mark_used o]> (tick b))
             end
         else
           process_update (Text user text) b
           = (Ok (), push_sent (Send ReplyText MInvalidOrExpired) b)
     end)
  ∧ reply b (Text user (str "12345")) = Some MNotUnderstood
  ∧ reply b (Text user (str "abcdef")) = Some MNotUnderstood.
Proof.
  assert (Hguide : ∀ t,
    isdigit (strip t) && bool_decide (length (strip t) = 6) = false →
    reply b (Text user t) = Some MNotUnderstood).
  { intros t H. apply (reply_pushed _ _ ReplyText _ []). unfold step.
    cbn [process_update]. by rewrite text_not_understood. }
  split; [|split; [|split; [|split]]].
  - split; [|apply Hguide].
    intros Hr. apply not_true_is_false. intros [Hd Hlen]%andb_prop.
    apply bool_decide_eq_true in Hlen.
    pose proof (six_digits_reply b user text Hd Hlen) as H.
    rewrite Hr in H.
    repeat case_match; discriminate.
  - intros H. cbn [process_update]. by apply text_not_understood.
  - intros [Hd Hlen%bool_decide_eq_true]%andb_prop. cbn [process_update].
    destruct (otp_codes b !! tg_id user) as [o|] eqn:Hl.
    + case_bool_decide as Heq.
      * case_bool_decide as Hlate.
        -- by apply (text_expired_code b (tg_id user) text Hd Hlen o).
        -- destruct (users b !! tg_id user) as [usr|] eqn:Hu.
           ++ apply (text_verified b (tg_id user) text Hd Hlen o usr);
                (done || lia).
           ++ apply (text_unregistered b (tg_id user) text Hd Hlen o);
                (done || lia).
      * by apply (text_wrong_code b (tg_id user) text Hd Hlen o).
    + by apply text_no_active_otp.
  - apply Hguide. vm_compute. reflexivity.
  - apply Hguide. vm_compute. reflexivity.
Qed.

(** C8, as stated, fails: the text " 012345" is seven characters, not six
    digits, and yet it verifies the live OTP "012345". *)
Lemma padded_code_is_an_attempt :
  exactly_six_digits (str " 012345") = false
  ∧ reply live_bot (Text alice (str " 012345"))
    = Some (MVerified (str "2FA Login") (str "012345") 8)
  ∧ otp_codes live_bot !! 7%Z = Some otp_012345
  ∧ otp_codes (step live_bot (Text alice (str " 012345"))) !! 7%Z = None.
Proof. vm_compute. repeat split; reflexivity. Qed.

(** ** The verify-current button *)

(** For a registered user the verify-current button has three outcomes and
    no other: without a record, "No OTP to verify"; with an expired record,
    "OTP has expired" and the record is deleted; with an unexpired record,
    success.  The stored code is checked against itself, so the failure
    reply is sent only when the clock is past the expiry, and the mismatch
    reply is never sent.  This is what the code does of C10. *)
Theorem verify_current_outcomes b user u :
  users b !! tg_id user = Some u →
  let pressed := Callback user (str "verify_current") in
  (otp_codes b !! tg_id user = None →
   process_update pressed b
   = (Ok (), push_sent (Send EditMessage MNoOtpToVerify) (push_sent Answer b)))
  ∧ (∀ o, otp_codes b !! tg_id user = Some o →
       (clock b (ticks b) > expires_at o)%Z →
       process_update pressed b
       = (Ok (), push_sent (Send EditMessage
                              (MFailedExpired (service_name o) (code o)))
                   (set_otp_codes (delete (tg_id user))
                      (tick (push_sent Answer b)))))
  ∧ (∀ o, otp_codes b !! tg_id user = Some o →
       (clock b (ticks b) ≤ expires_at o)%Z →
       process_update pressed b
       = (Ok (), verification_trace (push_sent Answer b) (tg_id user) o u
                   EditMessage (MVerifiedCurrent (service_name o) (code o)))
       ∧ reply b pressed
         = Some (MVerifiedCurrent (service_name o) (code o)
                   (clock b (S (S (ticks b))))))
  ∧ reply b pressed ≠ Some MInvalidOrExpired
  ∧ (∀ sn c, reply b pressed = Some (MFailedExpired sn c) →
       ∃ o, otp_codes b !! tg_id user = Some o
            ∧ (clock b (ticks b) > expires_at o)%Z).
Proof.
  intros Hu pressed.
  assert (Hnone : otp_codes b !! tg_id user = None →
    process_update pressed b
    = (Ok (), push_sent (Send EditMessage MNoOtpToVerify) (push_sent Answer b))).
  { intros Hl. unfold pressed. cbn [process_update].
    rewrite button_verify_current. by apply current_no_otp. }
  assert (Hlate : ∀ o, otp_codes b !! tg_id user = Some o →
    (clock b (ticks b) > expires_at o)%Z →
    process_update pressed b
    = (Ok (), push_sent (Send EditMessage
                           (MFailedExpired (service_name o) (code o)))
                (set_otp_codes (delete (tg_id user))
                   (tick (push_sent Answer b))))).
  { intros o Hl Hgt. unfold pressed. cbn [process_update].
    rewrite button_verify_current. by apply current_expired. }
  assert (Hlive : ∀ o, otp_codes b !! tg_id user = Some o →
    (clock b (ticks b) ≤ expires_at o)%Z →
    process_update pressed b
    = (Ok (), verification_trace (push_sent Answer b) (tg_id user) o u
                EditMessage (MVerifiedCurrent (service_name o) (code o)))).
  { intros o Hl Hle. unfold pressed. cbn [process_update].
    rewrite button_verify_current. by apply current_verified. }
  assert (Hcases :
    reply b pressed = Some MNoOtpToVerify ∧ otp_codes b !! tg_id user = None
    ∨ ∃ o, otp_codes b !! tg_id user = Some o
        ∧ (reply b pressed = Some (MFailedExpired (service_name o) (code o))
           ∧ (clock b (ticks b) > expires_at o)%Z
           ∨ reply b pressed
             = Some (MVerifiedCurrent (service_name o) (code o)
                       (clock b (S (S (ticks b)))))
             ∧ (clock b (ticks b) ≤ expires_at o)%Z)).
  { destruct (otp_codes b !! tg_id user) as [o|] eqn:Hl.
    - right. exists o. split; [done|].
      destruct (decide (clock b (ticks b) > expires_at o)%Z) as [Hgt|Hle].
      + left. split; [|done].
        apply (reply_pushed _ _ EditMessage _ [Answer]). unfold step.
        by rewrite (Hlate o).
      + right. split; [|lia].
        apply (reply_pushed _ _ EditMessage _ [Answer]). unfold step.
        by rewrite (Hlive o) by (done || lia).
    - left. split; [|done].
      apply (reply_pushed _ _ EditMessage _ [Answer]). unfold step.
      by rewrite Hnone. }
  split; [exact Hnone|]. split; [exact Hlate|].
  split.
  { intros o Hl Hle. split; [by apply Hlive|].
    apply (reply_pushed _ _ EditMessage _ [Answer]). unfold step.
    by rewrite (Hlive o). }
  split.
  - intros Hr. destruct Hcases as [[H _]|(o & _ & [[H _]|[H _]])];
      rewrite Hr in H; discriminate.
  - intros sn c Hr. destruct Hcases as [[H _]|(o & Hl & [[H Hgt]|[H _]])];
      rewrite Hr in H; try discriminate. eauto.
Qed.

Lemma verify_current_outcomes_witness :
  reply live_bot (Callback alice (str "verify_current"))
  = Some (MVerifiedCurrent (str "2FA Login") (str "012345") 8).
Proof.
  pose proof (verify_current_outcomes live_bot alice al_after_generate) as H.
  cbv zeta in H.
  destruct H as (_ & _ & Hlive & _).
  - vm_compute. reflexivity.
  - destruct (Hlive otp_012345) as [_ Hr].
    + vm_compute. reflexivity.
    + vm_compute. discriminate.
    + exact Hr.
Defined.

(** C10 fails on the code for a user who never sent /start.  With a live,
    unexpired OTP the verify-current button does not succeed: it raises
    [KeyError] at the counter, an outcome that is neither the no-OTP nor the
    expired case; no message is sent and the record is left behind. *)
Lemma verify_current_unregistered_user_raises :
  otp_codes unregistered_bot !! 7%Z
  = Some (mkOtp (str "012345") (str "login_2fa") (str "2FA Login") 1 180000000 false)
  ∧ (clock unregistered_bot (ticks unregistered_bot) ≤ 180000000)%Z
  ∧ (process_update (Callback alice (str "verify_current")) unregistered_bot).1
    = Raise (KeyError_user 7)
  ∧ reply unregistered_bot (Callback alice (str "verify_current")) = None.
Proof.
  split_and!; try (vm_compute; reflexivity).
  vm_compute. discriminate.
Qed.

(** ** [generate_otp_for_service], case by case *)

Section generate_otp_for_service.
Variables (b : OTPBot) (user_id : Z) (service_id : pystr).

Lemma generate_unknown_service :
  services !! service_id = None →
  generate_otp_for_service user_id service_id b
  = (Raise (KeyError_service service_id), b).
Proof. intros Hs. unfold generate_otp_for_service. by rewrite Hs. Qed.

Variable service_info : Service.
Hypothesis Hservice : services !! service_id = Some service_info.

Lemma generate_registered u :
  users b !! user_id = Some u →
  generate_otp_for_service user_id service_id b
  = (Ok (), generation_trace b user_id service_id service_info u).
Proof.
  intros Hu. unfold generate_otp_for_service. rewrite Hservice.
  unfold generate_otp. unfold mbind at 1, M_bind at 1.
  rewrite random_choices_run.
  repeat (mrun; first [rewrite Hu]).
  reflexivity.
Qed.

Lemma generate_unregistered :
  users b !! user_id = None →
  generate_otp_for_service user_id service_id b
  = (Raise (KeyError_user user_id),
     set_otp_codes <[user_id := fresh_otp b service_id service_info]>
       (tick (tick (add_draws 6 b)))).
Proof.
  intros Hu. unfold generate_otp_for_service. rewrite Hservice.
  unfold generate_otp. unfold mbind at 1, M_bind at 1.
  rewrite random_choices_run.
  repeat (mrun; first [rewrite Hu]).
  reflexivity.
Qed.

(** Registered or not, the fresh record is in the store afterwards and no
    other user's record is touched. *)
Lemma generate_stores_fresh :
  otp_codes (generate_otp_for_service user_id service_id b).2
  = <[user_id := fresh_otp b service_id service_info]> (otp_codes b).
Proof.
  destruct (users b !! user_id) as [u|] eqn:Hu.
  - by rewrite (generate_registered u).
  - by rewrite generate_unregistered.
Qed.
End generate_otp_for_service.

(** ** Store errors *)

(** C2 (amended). The handlers do not catch the store errors.  A service
    button whose id is not configured raises [KeyError] at the services
    lookup, and a stats request (command or button) from a user who never
    registered raises [KeyError] at the users lookup; in both cases the
    exception leaves the handler, no message is rendered and the bot's
    records are unchanged. *)
Theorem store_errors_propagate b user service_id :
  (services !! service_id = None →
   process_update (Callback user (str "gen_" ++ service_id)) b
   = (Raise (KeyError_service service_id), push_sent Answer b)
   ∧ reply b (Callback user (str "gen_" ++ service_id)) = None)
  ∧ (users b !! tg_id user = None →
     process_update (Command user CStats) b
     = (Raise (KeyError_user (tg_id user)), b)
     ∧ reply b (Command user CStats) = None
     ∧ process_update (Callback user (str "stats")) b
       = (Raise (KeyError_user (tg_id user)), push_sent Answer b)
     ∧ reply b (Callback user (str "stats")) = None).
Proof.
  assert (Hstats : ∀ via b0, users b0 !! tg_id user = None →
            show_stats (tg_id user) via b0 = (Raise (KeyError_user (tg_id user)), b0)).
  { intros via b0 Hu. unfold show_stats. mrun. by rewrite Hu. }
  split.
  - intros Hs.
    assert (Hrun : process_update (Callback user (str "gen_" ++ service_id)) b
                   = (Raise (KeyError_service service_id), push_sent Answer b)).
    { cbn [process_update]. rewrite button_gen. by apply generate_unknown_service. }
    split; [exact Hrun|].
    apply (reply_silent _ _ [Answer]); [|repeat constructor].
    unfold step. by rewrite Hrun.
  - intros Hu.
    assert (Hcmd : process_update (Command user CStats) b
                   = (Raise (KeyError_user (tg_id user)), b))
      by (cbn [process_update]; unfold stats_command; by apply Hstats).
    assert (Hbtn : process_update (Callback user (str "stats")) b
                   = (Raise (KeyError_user (tg_id user)), push_sent Answer b))
      by (cbn [process_update]; rewrite button_stats; by apply Hstats).
    split; [exact Hcmd|]. split.
    { apply (reply_silent _ _ []); [|constructor]. unfold step. by rewrite Hcmd. }
    split; [exact Hbtn|].
    apply (reply_silent _ _ [Answer]); [|repeat constructor].
    unfold step. by rewrite Hbtn.
Qed.

(** C2, as stated, fails: on a fresh bot the button payload "gen_bogus" and
    the /stats command of a user who never registered both end in a
    [KeyError] that leaves the handler, and nothing is sent to the user. *)
Lemma store_errors_are_not_caught :
  services !! str "bogus" = None
  ∧ process_update (Callback alice (str "gen_bogus")) (init ∅ clk_us gen_id)
    = (Raise (KeyError_service (str "bogus")),
       push_sent Answer (init ∅ clk_us gen_id))
  ∧ reply (init ∅ clk_us gen_id) (Callback alice (str "gen_bogus")) = None
  ∧ process_update (Command alice CStats) (init ∅ clk_us gen_id)
    = (Raise (KeyError_user 7), init ∅ clk_us gen_id)
  ∧ reply (init ∅ clk_us gen_id) (Command alice CStats) = None.
Proof. vm_compute. repeat split; reflexivity. Qed.

(** ** Generation *)

(** C5 (amended). For a configured service with expiry E, a generation
    request stores a record whose code is six decimal digits and whose
    [expires_at] is T + E, where T is the clock reading taken for the expiry.
    [created_at] is the next, separate clock reading, so [expires_at] equals
    [created_at] + E exactly when the two readings coincide. *)
Theorem generated_otp_shape b user_id service_id service_info :
  services !! service_id = Some service_info →
  let o := fresh_otp b service_id service_info in
  otp_codes (generate_otp_for_service user_id service_id b).2 !! user_id = Some o
  ∧ length (code o) = 6
  ∧ Forall decimal_digit (code o)
  ∧ isdigit (code o) = true
  ∧ expires_at o
    = (clock b (ticks b) + timedelta_seconds (expiry service_info))%Z
  ∧ created_at o = clock b (S (ticks b))
  ∧ (expires_at o = (created_at o + timedelta_seconds (expiry service_info))%Z
     ↔ clock b (S (ticks b)) = clock b (ticks b)).
Proof.
  intros Hs o.
  assert (Hdig : Forall decimal_digit (code o)) by apply choices_from_digits.
  assert (Hlen : length (code o) = 6) by apply choices_from_length.
  split. { rewrite (generate_stores_fresh _ _ _ _ Hs). apply lookup_insert_eq. }
  split; [exact Hlen|]. split; [exact Hdig|].
  split.
  { destruct (code o) as [|c cs] eqn:Hc; [done|].
    cbn [isdigit]. apply forallb_forall. intros x Hx.
    apply decimal_digit_isdigit. rewrite Forall_forall in Hdig.
    apply Hdig. by apply list_elem_of_In. }
  split; [done|]. split; [done|].
  cbn. lia.
Qed.

Lemma generated_otp_shape_witness :
  otp_codes (generate_otp_for_service 7 (str "login_2fa")
               (init ∅ clk_us gen_id)).2 !! 7%Z
  = Some (mkOtp (str "012345") (str "login_2fa") (str "2FA Login") 1 180000000 false).
Proof.
  pose proof (generated_otp_shape (init ∅ clk_us gen_id) 7 (str "login_2fa")
                (mkService (str "2FA Login") 180)) as H.
  cbv zeta in H.
  destruct H as (Hl & _).
  - vm_compute. reflexivity.
  - exact Hl.
Defined.

(** C5, as stated, fails on its "equivalently": with a clock that advances
    one microsecond per reading, the record generated for "2FA Login"
    (expiry 180 s) has [expires_at] 180000002 and [created_at] 3. *)
Lemma expiry_is_not_created_plus_expiry :
  services !! str "login_2fa" = Some (mkService (str "2FA Login") 180)
  ∧ otp_codes live_bot !! 7%Z = Some otp_012345
  ∧ expires_at otp_012345 ≠ (created_at otp_012345 + timedelta_seconds 180)%Z.
Proof.
  split_and!; try (vm_compute; reflexivity).
  vm_compute. discriminate.
Qed.

(** ** One record per user *)

Lemma filter_key_absent {V} (l : list (Z * V)) k :
  k ∉ l.*1 → filter (λ kv, kv.1 = k) l = [].
Proof.
  induction l as [|[k' v'] l IH]; [done|]. cbn [fmap list_fmap fst].
  intros [Hne Hnin]%not_elem_of_cons.
  rewrite filter_cons_False by (cbn; congruence). by apply IH.
Qed.

Lemma filter_key_present {V} (l : list (Z * V)) k v :
  NoDup l.*1 → (k, v) ∈ l → filter (λ kv, kv.1 = k) l = [(k, v)].
Proof.
  induction l as [|[k' v'] l IH]; [by intros _ ?%elem_of_nil|].
  cbn [fmap list_fmap fst]. intros [Hnin Hnd]%NoDup_cons Hin.
  apply elem_of_cons in Hin as [Heq|Hin].
  - injection Heq as <- <-.
    rewrite filter_cons_True by done. f_equal. by apply filter_key_absent.
  - rewrite filter_cons_False; [by apply IH|].
    cbn. intros ->. apply Hnin.
    apply list_elem_of_fmap. by exists (k, v).
Qed.

Lemma otp_records_of_lookup user_id b :
  otp_records_of user_id b = option_list (otp_codes b !! user_id).
Proof.
  unfold otp_records_of.
  destruct (otp_codes b !! user_id) as [o|] eqn:Hl.
  - rewrite (filter_key_present _ user_id o); [done| |].
    + apply NoDup_fst_map_to_list.
    + by apply elem_of_map_to_list.
  - rewrite filter_key_absent; [done|].
    intros ([k v] & Hk & Hin)%list_elem_of_fmap. cbn in Hk. subst k.
    apply elem_of_map_to_list in Hin. congruence.
Qed.

Lemma reachable_run_updates b us : reachable b → reachable (run_updates b us).
Proof.
  revert b. induction us as [|u us IH]; intros b Hb; [done|].
  cbn. apply IH. by constructor.
Qed.

(** C4. In every reachable state the live store holds at most one record
    per user, and a generation for a configured service leaves exactly the
    fresh record for that user, whatever was stored for the user before; the
    other users' records are not touched. *)
Theorem one_live_otp_per_user b :
  reachable b →
  (∀ user_id, length (otp_records_of user_id b) ≤ 1)
  ∧ (∀ user service_id service_info,
       services !! service_id = Some service_info →
       let b' := step b (Callback user (str "gen_" ++ service_id)) in
       reachable b'
       ∧ otp_records_of (tg_id user) b' = [fresh_otp b service_id service_info]
       ∧ (∀ other, other ≠ tg_id user →
            otp_codes b' !! other = otp_codes b !! other)).
Proof.
  intros Hreach. split.
  - intros user_id. rewrite otp_records_of_lookup.
    destruct (otp_codes b !! user_id); cbn; lia.
  - intros user service_id service_info Hs b'.
    assert (Hcodes : otp_codes b'
              = <[tg_id user := fresh_otp b service_id service_info]> (otp_codes b)).
    { unfold b', step. cbn [process_update]. rewrite button_gen.
      apply (generate_stores_fresh (push_sent Answer b) _ _ _ Hs). }
    split. { by constructor. }
    split. { rewrite otp_records_of_lookup, Hcodes. by rewrite lookup_insert_eq. }
    intros other Hne. rewrite Hcodes. by apply lookup_insert_ne.
Qed.

Lemma one_live_otp_per_user_witness :
  length (otp_records_of 7 live_bot) ≤ 1
  ∧ otp_records_of 7
      (step live_bot (Callback alice (str "gen_password_reset")))
    = [fresh_otp live_bot (str "password_reset")
         (mkService (str "Password Reset") 600)].
Proof.
  pose proof (one_live_otp_per_user live_bot) as H.
  destruct H as (Hone & Hgen).
  - apply reachable_run_updates. constructor.
  - split; [apply Hone|].
    destruct (Hgen alice (str "password_reset")
                (mkService (str "Password Reset") 600)) as (_ & Hr & _).
    + vm_compute. reflexivity.
    + exact Hr.
Defined.

(** ** What an update does to the users *)

Tactic Notation "quiet_effect" uconstr(l) :=
  eexists l; split;
  [reflexivity | apply effect_none; [reflexivity | repeat constructor]].

Lemma current_otp_info_run user_id b :
  ∃ i b', current_otp_info user_id b = (Ok i, b')
          ∧ users b' = users b ∧ outbox b' = outbox b.
Proof.
  unfold current_otp_info. mrun.
  destruct (otp_codes b !! user_id); [|eauto].
  case_bool_decide; eauto.
Qed.

Lemma effect_start user via : effect_of (start user via) (tg_id user).
Proof.
  intros b. unfold start. mrun.
  case_bool_decide as Hu; mrun.
  - eexists [_]. split; [reflexivity|].
    eapply effect_registered; [done | reflexivity | repeat constructor].
  - quiet_effect [_].
Qed.

Lemma effect_verify_otp_command user_id via :
  effect_of (verify_otp_command user_id via) user_id.
Proof.
  intros b. unfold verify_otp_command.
  destruct (current_otp_info_run user_id b) as (i & b' & Hrun & Hu & Ho).
  unfold mbind, M_bind. rewrite Hrun. mrun.
  eexists [_]. split; [by rewrite Ho|].
  apply effect_none; [done | repeat constructor].
Qed.

Lemma effect_show_stats user_id via : effect_of (show_stats user_id via) user_id.
Proof.
  intros b. unfold show_stats. mrun.
  destruct (users b !! user_id) as [u|]; [|quiet_effect []].
  destruct (current_otp_info_run user_id b) as (i & b' & Hrun & Hu & Ho).
  rewrite Hrun. mrun.
  eexists [_]. split; [by rewrite Ho|].
  apply effect_none; [done | repeat constructor].
Qed.

Lemma effect_generate user_id service_id :
  effect_of (generate_otp_for_service user_id service_id) user_id.
Proof.
  intros b. destruct (services !! service_id) as [service_info|] eqn:Hs.
  - destruct (users b !! user_id) as [u|] eqn:Hu.
    + rewrite (generate_registered b user_id service_id service_info Hs u Hu).
      eexists [_]. split; [reflexivity|]. by eapply effect_generated.
    + rewrite (generate_unregistered b user_id service_id service_info Hs Hu).
      quiet_effect [].
  - rewrite generate_unknown_service by done. quiet_effect [].
Qed.

Lemma effect_verify_current user_id :
  effect_of (verify_current_otp user_id) user_id.
Proof.
  intros b. destruct (otp_codes b !! user_id) as [o|] eqn:Hl.
  - destruct (decide (clock b (ticks b) > expires_at o)%Z).
    + rewrite (current_expired b user_id o) by done. quiet_effect [_].
    + destruct (users b !! user_id) as [u|] eqn:Hu.
      * rewrite (current_verified b user_id o u) by (done || lia).
        eexists [_]. split; [reflexivity|]. by eapply effect_verified.
      * rewrite (current_unregistered b user_id o) by (done || lia).
        quiet_effect [].
  - rewrite current_no_otp by done. quiet_effect [_].
Qed.

Lemma effect_handle_text_message user_id text :
  effect_of (handle_text_message user_id text) user_id.
Proof.
  intros b.
  destruct (isdigit (strip text) && bool_decide (length (strip text) = 6))
    eqn:Hsix.
  - apply andb_prop in Hsix as [Hd Hlen%bool_decide_eq_true].
    destruct (otp_codes b !! user_id) as [o|] eqn:Hl.
    + destruct (decide (strip text = code o)) as [Heq|Hne].
      * destruct (decide (clock b (ticks b) > expires_at o)%Z).
        -- rewrite (text_expired_code b user_id text Hd Hlen o) by done.
           quiet_effect [_].
        -- destruct (users b !! user_id) as [u|] eqn:Hu.
           ++ rewrite (text_verified b user_id text Hd Hlen o u) by (done || lia).
              eexists [_]. split; [reflexivity|]. by eapply effect_verified.
           ++ rewrite (text_unregistered b user_id text Hd Hlen o) by (done || lia).
              quiet_effect [].
      * rewrite (text_wrong_code b user_id text Hd Hlen o) by done.
        quiet_effect [_].
    + rewrite text_no_active_otp by done. quiet_effect [_].
  - rewrite text_not_understood by done. quiet_effect [_].
Qed.

Lemma effect_send via m user_id :
  is_generated m = false → is_success m = false →
  effect_of (send via m) user_id.
Proof.
  intros Hg Hv b. exists [Send via m]. split; [reflexivity|].
  apply effect_none; [reflexivity | by repeat constructor].
Qed.

Lemma effect_after_answer h user_id :
  effect_of h user_id → effect_of (modify (push_sent Answer);; h) user_id.
Proof.
  intros Hh b. mrun.
  destruct (Hh (push_sent Answer b)) as (l & Hout & Heff).
  destruct (h (push_sent Answer b)) as [r b'] eqn:Hrun.
  assert (Hgoal : ∃ l0, outbox b' = l0 ++ outbox b ∧ users_effect b b' user_id l0).
  { exists (l ++ [Answer]). cbn in Hout, Heff. split.
    { by rewrite Hout, <- app_assoc. }
    destruct Heff as [Hu Hq|u Hnone Hu Hq|u via m l' Hsome Hu Hl Hg Hv
                     |u via m l' Hsome Hu Hl Hg Hv].
    - apply effect_none; [done|]. apply Forall_app. split; [done|by repeat constructor].
    - eapply effect_registered; [done|done|].
      apply Forall_app. split; [done|by repeat constructor].
    - eapply effect_generated; [done|done| |done|done]. by rewrite Hl.
    - eapply effect_verified; [done|done| |done|done]. by rewrite Hl. }
  by destruct r.
Qed.

Lemma effect_button_callback user data :
  effect_of (button_callback user data) (tg_id user).
Proof.
  unfold button_callback. apply effect_after_answer.
  repeat case_bool_decide;
    try destruct (startswith (str "gen_") data);
    first [ apply effect_start
          | apply effect_verify_otp_command
          | apply effect_verify_current
          | apply effect_show_stats
          | apply effect_generate
          | by apply effect_send
          | intros b; quiet_effect [] ].
Qed.

Lemma step_effect b u :
  ∃ l, outbox (step b u) = l ++ outbox b
       ∧ users_effect b (step b u) (tg_id (effective_user u)) l.
Proof.
  unfold step. destruct u as [user c|user data|user text]; cbn [process_update].
  - destruct c; cbn [effective_user].
    + apply effect_start.
    + by apply effect_send.
    + apply effect_verify_otp_command.
    + apply effect_show_stats.
    + by apply effect_send.
    + by apply effect_send.
  - apply effect_button_callback.
  - apply effect_handle_text_message.
Qed.

(** ** Counters *)

Lemma answered_quiet (p : Msg → bool) user_id b u l :
  sent_by b u = l → Forall quiet l →
  (p = is_generated ∨ p = is_success) →
  answered p user_id b u = false.
Proof.
  intros Hl Hq Hp. unfold answered, reply. rewrite Hl.
  apply andb_false_iff. right.
  destruct Hq as [|[|via m] l' Hx Hq']; [done|done|].
  destruct Hx as [Hg Hv]. by destruct Hp as [-> | ->].
Qed.

Lemma answered_other (p : Msg → bool) user_id b u :
  tg_id (effective_user u) ≠ user_id → answered p user_id b u = false.
Proof. intros Hne. unfold answered. by rewrite bool_decide_false. Qed.

Lemma answered_head (p : Msg → bool) b u via m l :
  sent_by b u = Send via m :: l →
  answered p (tg_id (effective_user u)) b u = p m.
Proof.
  intros Hl. unfold answered, reply. rewrite Hl.
  by rewrite bool_decide_true.
Qed.

(** One update moves a registered user's counters by what it reports. *)
Lemma counters_step b u user_id usr :
  users b !! user_id = Some usr →
  ∃ usr', users (step b u) !! user_id = Some usr'
    ∧ otp_count usr'
      = (otp_count usr + if answered is_generated user_id b u then 1 else 0)%Z
    ∧ verified_count usr'
      = (verified_count usr + if answered is_success user_id b u then 1 else 0)%Z.
Proof.
  intros Hu. destruct (step_effect b u) as (l & Hout & Heff).
  apply sent_by_app in Hout.
  destruct Heff as [Hus Hq|u0 Hnone Hus Hq|u0 via m l' Hsome Hus Hl Hg Hv
                   |u0 via m l' Hsome Hus Hl Hg Hv].
  - exists usr. rewrite Hus.
    rewrite !(answered_quiet _ user_id b u l) by auto.
    split; [done|]. split; lia.
  - exists usr.
    assert (Hne : tg_id (effective_user u) ≠ user_id) by congruence.
    rewrite Hus, lookup_insert_ne by done.
    rewrite !answered_other by done.
    split; [done|]. split; lia.
  - destruct (decide (tg_id (effective_user u) = user_id)) as [Heq|Hne].
    + subst user_id l. exists (bump_otp_count usr).
      rewrite Hus, lookup_insert_eq.
      rewrite !(answered_head _ b u via m l') by done.
      rewrite Hg, Hv. cbn. split; [congruence|]. split; lia.
    + exists usr. rewrite Hus, lookup_insert_ne by done.
      rewrite !answered_other by done.
      split; [done|]. split; lia.
  - destruct (decide (tg_id (effective_user u) = user_id)) as [Heq|Hne].
    + subst user_id l. exists (bump_verified_count usr).
      rewrite Hus, lookup_insert_eq.
      rewrite !(answered_head _ b u via m l') by done.
      rewrite Hg, Hv. cbn. split; [congruence|]. split; lia.
    + exists usr. rewrite Hus, lookup_insert_ne by done.
      rewrite !answered_other by done.
      split; [done|]. split; lia.
Qed.

Lemma counters_monotone us b user_id usr :
  users b !! user_id = Some usr →
  ∃ usr', users (run_updates b us) !! user_id = Some usr'
    ∧ (otp_count usr ≤ otp_count usr')%Z
    ∧ (verified_count usr ≤ verified_count usr')%Z.
Proof.
  revert b usr. induction us as [|u us IH]; intros b usr Hu.
  - exists usr. cbn. split; [done|]. split; lia.
  - destruct (counters_step b u user_id usr Hu) as (usr1 & Hu1 & Hc & Hv).
    destruct (IH (step b u) usr1 Hu1) as (usr' & Hu' & Hc' & Hv').
    exists usr'. split; [exact Hu'|].
    destruct (answered is_generated user_id b u),
             (answered is_success user_id b u); split; lia.
Qed.

(** C6. For a registered user, a generation for a configured service
    increases [otp_count] by exactly 1 and leaves [verified_count] alone; any
    single update increases [otp_count] by 1 when it is that user's update
    and is answered with the generated code, and by 0 otherwise, and
    [verified_count] by 1 when it is that user's update and is answered with
    a success message, and by 0 otherwise; over any sequence of updates
    neither counter decreases. *)
Theorem counters_move_by_one b user_id usr :
  users b !! user_id = Some usr →
  (∀ service_id service_info,
     services !! service_id = Some service_info →
     ∃ b' usr',
       generate_otp_for_service user_id service_id b = (Ok (), b')
       ∧ users b' !! user_id = Some usr'
       ∧ otp_count usr' = (otp_count usr + 1)%Z
       ∧ verified_count usr' = verified_count usr)
  ∧ (∀ u, ∃ usr',
       users (step b u) !! user_id = Some usr'
       ∧ otp_count usr'
         = (otp_count usr + if answered is_generated user_id b u then 1 else 0)%Z
       ∧ verified_count usr'
         = (verified_count usr + if answered is_success user_id b u then 1 else 0)%Z)
  ∧ (∀ us, ∃ usr',
       users (run_updates b us) !! user_id = Some usr'
       ∧ (otp_count usr ≤ otp_count usr')%Z
       ∧ (verified_count usr ≤ verified_count usr')%Z).
Proof.
  intros Hu. split; [|split].
  - intros service_id service_info Hs.
    exists (generation_trace b user_id service_id service_info usr),
           (bump_otp_count usr).
    split; [by apply generate_registered|].
    split; [cbn; apply lookup_insert_eq|]. done.
  - intros u. by apply counters_step.
  - intros us. by apply counters_monotone.
Qed.

Lemma counters_move_by_one_witness :
  ∃ usr', users (step live_bot (Text alice (str "012345"))) !! 7%Z = Some usr'
    ∧ otp_count usr' = 1%Z ∧ verified_count usr' = 1%Z.
Proof.
  pose proof (counters_move_by_one live_bot 7 al_after_generate) as H.
  destruct H as (_ & Hstep & _).
  - vm_compute. reflexivity.
  - destruct (Hstep (Text alice (str "012345"))) as (usr' & Hl & Hc & Hv).
    exists usr'. split; [exact Hl|]. split.
    + rewrite Hc. vm_compute. reflexivity.
    + rewrite Hv. vm_compute. reflexivity.
Defined.

(** ** The used flag *)

(** C9 fails on the code.  A user who never sent /start can still press a
    service button: the record is stored before the counter update raises
    [KeyError].  Verifying that record marks it used and then raises at the
    counter again, before the deletion, so the live store of a reachable
    state holds a record with [used = True]. *)
Theorem used_record_stays_live :
  reachable used_bot
  ∧ users used_bot !! 7%Z = None
  ∧ otp_codes used_bot !! 7%Z
    = Some (mkOtp (str "012345") (str "login_2fa") (str "2FA Login")
              1 180000000 true)
  ∧ (process_update (Callback alice (str "gen_login_2fa"))
       (step (init ∅ clk_us gen_id) (Command alice CGenerate))).1
    = Raise (KeyError_user 7)
  ∧ (process_update (Callback alice (str "verify_current")) unregistered_bot).1
    = Raise (KeyError_user 7).
Proof.
  split.
  { unfold used_bot, unregistered_bot. constructor.
    apply reachable_run_updates. constructor. }
  vm_compute. repeat split; reflexivity.
Qed.

(** When no handler raises, the claim's invariant does hold: the record is
    marked used and deleted within one handler run. *)

Lemma current_otp_info_store user_id b :
  otp_codes (current_otp_info user_id b).2 = otp_codes b.
Proof.
  unfold current_otp_info. mrun.
  destruct (otp_codes b !! user_id); [|done].
  by case_bool_decide.
Qed.

Lemma store_start user via : store_effect_of (start user via) (tg_id user).
Proof.
  intros b _. left. unfold start. mrun. by case_bool_decide.
Qed.

Lemma store_verify_otp_command user_id via :
  store_effect_of (verify_otp_command user_id via) user_id.
Proof.
  intros b _. left. unfold verify_otp_command.
  pose proof (current_otp_info_store user_id b) as H.
  destruct (current_otp_info_run user_id b) as (i & b' & Hrun & _).
  unfold mbind, M_bind. rewrite Hrun in H |- *. by mrun.
Qed.

Lemma store_show_stats user_id via : store_effect_of (show_stats user_id via) user_id.
Proof.
  intros b _. left. unfold show_stats. mrun.
  destruct (users b !! user_id) as [u|]; [|done].
  pose proof (current_otp_info_store user_id b) as H.
  destruct (current_otp_info_run user_id b) as (i & b' & Hrun & _).
  rewrite Hrun in H |- *. by mrun.
Qed.

Lemma store_generate user_id service_id :
  store_effect_of (generate_otp_for_service user_id service_id) user_id.
Proof.
  intros b Hok. destruct (services !! service_id) as [service_info|] eqn:Hs.
  - right. right. exists (fresh_otp b service_id service_info).
    split; [done|]. by apply generate_stores_fresh.
  - by rewrite generate_unknown_service in Hok.
Qed.

Lemma store_verify_current user_id :
  store_effect_of (verify_current_otp user_id) user_id.
Proof.
  intros b. destruct (otp_codes b !! user_id) as [o|] eqn:Hl.
  - destruct (decide (clock b (ticks b) > expires_at o)%Z).
    + rewrite (current_expired b user_id o) by done. intros _. by right; left.
    + destruct (users b !! user_id) as [u|] eqn:Hu.
      * rewrite (current_verified b user_id o u) by (done || lia).
        intros _. right. left. cbn. apply delete_insert_eq.
      * by rewrite (current_unregistered b user_id o) by (done || lia).
  - rewrite current_no_otp by done. intros _. by left.
Qed.

Lemma store_handle_text_message user_id text :
  store_effect_of (handle_text_message user_id text) user_id.
Proof.
  intros b.
  destruct (isdigit (strip text) && bool_decide (length (strip text) = 6))
    eqn:Hsix.
  - apply andb_prop in Hsix as [Hd Hlen%bool_decide_eq_true].
    destruct (otp_codes b !! user_id) as [o|] eqn:Hl.
    + destruct (decide (strip text = code o)) as [Heq|Hne].
      * destruct (decide (clock b (ticks b) > expires_at o)%Z).
        -- rewrite (text_expired_code b user_id text Hd Hlen o) by done.
           intros _. by right; left.
        -- destruct (users b !! user_id) as [u|] eqn:Hu.
           ++ rewrite (text_verified b user_id text Hd Hlen o u) by (done || lia).
              intros _. right. left. cbn. apply delete_insert_eq.
           ++ by rewrite (text_unregistered b user_id text Hd Hlen o)
                by (done || lia).
      * rewrite (text_wrong_code b user_id text Hd Hlen o) by done.
        intros _. by left.
    + rewrite text_no_active_otp by done. intros _. by left.
  - rewrite text_not_understood by done. intros _. by left.
Qed.

Lemma store_after_answer h user_id :
  store_effect_of h user_id →
  store_effect_of (modify (push_sent Answer);; h) user_id.
Proof.
  intros Hh b. mrun. specialize (Hh (push_sent Answer b)).
  destruct (h (push_sent Answer b)) as [[[]|e] b']; cbn in *; [auto|done].
Qed.

Lemma store_button_callback user data :
  store_effect_of (button_callback user data) (tg_id user).
Proof.
  unfold button_callback. apply store_after_answer.
  repeat case_bool_decide;
    try destruct (startswith (str "gen_") data);
    first [ apply store_start
          | apply store_verify_otp_command
          | apply store_verify_current
          | apply store_show_stats
          | apply store_generate
          | by intros b _; left ].
Qed.

Lemma store_process_update u :
  store_effect_of (process_update u) (tg_id (effective_user u)).
Proof.
  destruct u as [user c|user data|user text]; cbn [process_update effective_user].
  - destruct c.
    + apply store_start.
    + by intros b _; left.
    + apply store_verify_otp_command.
    + apply store_show_stats.
    + by intros b _; left.
    + by intros b _; left.
  - apply store_button_callback.
  - apply store_handle_text_message.
Qed.

Lemma all_unused_without_raise b :
  reachable_without_raise b → all_unused b.
Proof.
  induction 1 as [loaded clk gen|b u _ IH Hok].
  - intros user_id o Hl. cbn in Hl. by rewrite lookup_empty in Hl.
  - intros user_id o. unfold step.
    destruct (store_process_update u b Hok) as [-> | [-> | (o' & Ho' & ->)]].
    + apply IH.
    + intros [_ Hl]%lookup_delete_Some. by apply (IH user_id).
    + intros [[_ <-]|[_ Hl]]%lookup_insert_Some; [done|]. by apply (IH user_id).
Qed.

(** * The whole bot, update by update *)

(** ** [start], case by case *)

Lemma start_unregistered user via b :
  users b !! tg_id user = None →
  start user via b
  = (Ok (),
     push_sent (Send via (MWelcome (tg_first_name user)))
       (push_save (<[tg_id user := new_user user (clock b (ticks b))]> (users b),
                   clock b (S (ticks b)))
          (tick (set_users <[tg_id user := new_user user (clock b (ticks b))]>
                   (tick b))))).
Proof.
  intros Hu. unfold start. mrun. by rewrite bool_decide_true.
Qed.

Lemma start_registered user via b :
  is_Some (users b !! tg_id user) →
  start user via b = (Ok (), push_sent (Send via (MWelcome (tg_first_name user))) b).
Proof.
  intros [usr Hu]. unfold start. mrun.
  by rewrite bool_decide_false by congruence.
Qed.

(** ** Every handler is a transition *)

Lemma acks_nil : acks [].
Proof. constructor. Qed.

Lemma acks_app_answer l : acks l → acks (l ++ [Answer]).
Proof. intros H. apply Forall_app. split; [done|by repeat constructor]. Qed.

#[local] Hint Resolve acks_nil acks_app_answer : core.

Lemma same_records_refl b : same_records b b.
Proof. by repeat split. Qed.

#[local] Hint Resolve same_records_refl : core.

Lemma handles_send u via m :
  is_generated m = false → is_success m = false → handles u (send via m).
Proof.
  intros Hg Hv b. exists [Send via m]. split; [reflexivity|]. cbn [fst snd].
  apply t_reply; [by repeat split | by split | done].
Qed.

Lemma handles_start u via :
  is_start u = true → handles u (start (effective_user u) via).
Proof.
  intros Hs b. destruct (users b !! tg_id (effective_user u)) as [usr|] eqn:Hu.
  - rewrite start_registered by eauto.
    eexists [_]. split; [reflexivity|]. cbn [fst snd].
    apply t_reply; [by repeat split | by split | done].
  - rewrite start_unregistered by done.
    eexists [_]. split; [reflexivity|]. cbn [fst snd].
    by apply t_register.
Qed.

Lemma handles_verify_otp_command u via :
  handles u (verify_otp_command (tg_id (effective_user u)) via).
Proof.
  intros b. unfold verify_otp_command.
  pose proof (current_otp_info_store (tg_id (effective_user u)) b) as Hst.
  destruct (current_otp_info_run (tg_id (effective_user u)) b)
    as (i & b' & Hrun & Hu & Ho).
  unfold current_otp_info in Hrun, Hst |- *. revert Hrun Hst. mrun.
  destruct (otp_codes b !! tg_id (effective_user u)) as [o|].
  - case_bool_decide; intros [= <- <-] _; eexists [_];
      (split; [reflexivity|]); cbn [fst snd]; apply t_reply; by repeat split.
  - intros [= <- <-] _. eexists [_]. split; [reflexivity|]. cbn [fst snd].
    apply t_reply; by repeat split.
Qed.

Lemma handles_show_stats u via :
  handles u (show_stats (tg_id (effective_user u)) via).
Proof.
  intros b. unfold show_stats. mrun.
  destruct (users b !! tg_id (effective_user u)) as [usr|] eqn:Hu.
  - unfold current_otp_info. mrun.
    destruct (otp_codes b !! tg_id (effective_user u)) as [o|].
    + case_bool_decide; eexists [_]; (split; [reflexivity|]); cbn [fst snd];
        apply t_reply; by repeat split.
    + eexists [_]. split; [reflexivity|]. cbn [fst snd]. apply t_reply; by repeat split.
  - exists []. split; [reflexivity|]. cbn [fst snd]. by apply t_unknown_user.
Qed.

Lemma handles_generate u service_id :
  is_gen u = true →
  handles u (generate_otp_for_service (tg_id (effective_user u)) service_id).
Proof.
  intros Hgen b. set (user_id := tg_id (effective_user u)).
  destruct (services !! service_id) as [service_info|] eqn:Hs.
  - destruct (users b !! user_id) as [usr|] eqn:Hu.
    + rewrite (generate_registered b user_id service_id service_info Hs usr Hu).
      eexists [_]. split; [reflexivity|]. cbn [fst snd].
      by eapply (t_generated u b _ service_id service_info usr).
    + rewrite (generate_unregistered b user_id service_id service_info Hs Hu).
      exists []. split; [reflexivity|]. cbn [fst snd].
      by eapply (t_generated_unregistered u b _ service_id service_info).
  - rewrite generate_unknown_service by done.
    exists []. split; [reflexivity|]. cbn [fst snd]. by apply t_unknown_service.
Qed.

Lemma handles_verify_current user data :
  handles (Callback user data) (verify_current_otp (tg_id user)).
Proof.
  intros b. destruct (otp_codes b !! tg_id user) as [o|] eqn:Hl.
  - destruct (decide (clock b (ticks b) > expires_at o)%Z).
    + rewrite (current_expired b (tg_id user) o) by done.
      eexists [_]. split; [reflexivity|]. cbn [fst snd].
      by eapply (t_expired (Callback user data) b _ o).
    + destruct (users b !! tg_id user) as [usr|] eqn:Hu.
      * rewrite (current_verified b (tg_id user) o usr) by (done || lia).
        eexists [_]. split; [reflexivity|]. cbn [fst snd].
        eapply (t_verified (Callback user data) b _ o usr);
          first [done | lia | cbn; apply delete_insert_eq].
      * rewrite (current_unregistered b (tg_id user) o) by (done || lia).
        exists []. split; [reflexivity|]. cbn [fst snd].
        eapply (t_verify_unregistered (Callback user data) b _ o); first [done | lia].
  - rewrite current_no_otp by done.
    eexists [_]. split; [reflexivity|]. cbn [fst snd]. apply t_reply; by repeat split.
Qed.

Lemma handles_text user text :
  handles (Text user text) (handle_text_message (tg_id user) text).
Proof.
  intros b.
  destruct (isdigit (strip text) && bool_decide (length (strip text) = 6))
    eqn:Hsix.
  - apply andb_prop in Hsix as [Hd Hlen%bool_decide_eq_true].
    destruct (otp_codes b !! tg_id user) as [o|] eqn:Hl.
    + destruct (decide (strip text = code o)) as [Heq|Hne].
      * destruct (decide (clock b (ticks b) > expires_at o)%Z).
        -- rewrite (text_expired_code b (tg_id user) text Hd Hlen o) by done.
           eexists [_]. split; [reflexivity|]. cbn [fst snd].
           by eapply (t_expired (Text user text) b _ o).
        -- destruct (users b !! tg_id user) as [usr|] eqn:Hu.
           ++ rewrite (text_verified b (tg_id user) text Hd Hlen o usr)
                by (done || lia).
              eexists [_]. split; [reflexivity|]. cbn [fst snd].
              eapply (t_verified (Text user text) b _ o usr);
                first [done | lia | cbn; apply delete_insert_eq].
           ++ rewrite (text_unregistered b (tg_id user) text Hd Hlen o)
                by (done || lia).
              exists []. split; [reflexivity|]. cbn [fst snd].
              eapply (t_verify_unregistered (Text user text) b _ o); first [done | lia].
      * rewrite (text_wrong_code b (tg_id user) text Hd Hlen o) by done.
        eexists [_]. split; [reflexivity|]. cbn [fst snd]. apply t_reply; by repeat split.
    + rewrite text_no_active_otp by done.
      eexists [_]. split; [reflexivity|]. cbn [fst snd]. apply t_reply; by repeat split.
  - rewrite text_not_understood by done.
    eexists [_]. split; [reflexivity|]. cbn [fst snd]. apply t_reply; by repeat split.
Qed.

Lemma transition_after_answer u b r b' l :
  transition u (push_sent Answer b) r b' l → transition u b r b' (l ++ [Answer]).
Proof.
  intros H. inversion H; subst; cbn in *.
  - apply t_silent; auto.
  - apply t_reply; auto.
  - by apply t_register; auto.
  - apply t_unknown_service; auto.
  - apply t_unknown_user; auto.
  - by eapply t_generated; eauto.
  - by eapply t_generated_unregistered; eauto.
  - by eapply t_expired; eauto.
  - by eapply t_verified; eauto.
  - by eapply t_verify_unregistered; eauto.
Qed.

Lemma handles_after_answer u h :
  handles u h → handles u (modify (push_sent Answer);; h).
Proof.
  intros Hh b. mrun.
  destruct (Hh (push_sent Answer b)) as (l & Hout & Ht).
  destruct (h (push_sent Answer b)) as [r b'] eqn:Hrun. cbn in Hout, Ht.
  assert (Hgoal : ∃ l0, outbox b' = l0 ++ outbox b ∧ transition u b r b' l0).
  { exists (l ++ [Answer]). split.
    - by rewrite Hout, <- app_assoc.
    - by apply transition_after_answer. }
  by destruct r as [[]|e].
Qed.

Lemma handles_button_callback user data :
  handles (Callback user data) (button_callback user data).
Proof.
  unfold button_callback. apply handles_after_answer.
  case_bool_decide as Hmain.
  { apply (handles_start (Callback user data)). cbn. by rewrite bool_decide_true. }
  repeat case_bool_decide;
    try destruct (startswith (str "gen_") data) eqn:Hgen;
    first [ apply (handles_verify_otp_command (Callback user data))
          | apply handles_verify_current
          | apply (handles_show_stats (Callback user data))
          | by apply (handles_generate (Callback user data))
          | by apply handles_send
          | intros b; exists []; split; [reflexivity|]; by apply t_silent ].
Qed.

Lemma handles_process_update u : handles u (process_update u).
Proof.
  destruct u as [user c|user data|user text]; cbn [process_update].
  - destruct c.
    + by apply (handles_start (Command user CStart)).
    + by apply handles_send.
    + apply (handles_verify_otp_command (Command user CVerify)).
    + apply (handles_show_stats (Command user CStats)).
    + by apply handles_send.
    + by apply handles_send.
  - apply handles_button_callback.
  - apply handles_text.
Qed.

(** Each update is one of the transitions, and the calls it makes are the
    ones [sent_by] reports. *)
Lemma step_transition b u :
  transition u b (process_update u b).1 (step b u) (sent_by b u).
Proof.
  destruct (handles_process_update u b) as (l & Hout & Ht).
  by rewrite (sent_by_app b u l Hout).
Qed.

Ltac step_cases b u :=
  let Ht := fresh "Ht" in
  pose proof (step_transition b u) as Ht;
  remember (process_update u b).1 as r eqn:Hr;
  remember (step b u) as b' eqn:Hb';
  remember (sent_by b u) as l eqn:Hsent;
  destruct Ht.

Lemma reply_of_acks b u l : sent_by b u = l → acks l → reply b u = None.
Proof. intros Hl Ha. unfold reply. rewrite Hl. by destruct Ha as [|? ? ->]. Qed.

Lemma reply_of_send b u via m l : sent_by b u = Send via m :: l → reply b u = Some m.
Proof. intros Hl. unfold reply. by rewrite Hl. Qed.

(** ** Users are isolated from each other *)

Lemma step_other_user b u other :
  other ≠ tg_id (effective_user u) →
  users (step b u) !! other = users b !! other.
Proof.
  intros Hne. step_cases b u;
    repeat match goal with
           | H : same_records _ _ |- _ => destruct H as (? & ? & ?)
           | H : users _ = _ |- _ => rewrite H; clear H
           end;
    rewrite ?lookup_insert_ne by done; done.
Qed.

Lemma step_other_otp b u other :
  other ≠ tg_id (effective_user u) →
  otp_codes (step b u) !! other = otp_codes b !! other.
Proof.
  intros Hne. step_cases b u;
    repeat match goal with
           | H : same_records _ _ |- _ => destruct H as (? & ? & ?)
           | H : otp_codes _ = _ |- _ => rewrite H; clear H
           end;
    rewrite ?lookup_insert_ne, ?lookup_delete_ne by done; done.
Qed.

(** X1. An update of one user changes no other user's record and no other
    user's OTP, whether its handler returns or raises. *)
Theorem updates_touch_only_their_user b u other :
  other ≠ tg_id (effective_user u) →
  users (step b u) !! other = users b !! other
  ∧ otp_codes (step b u) !! other = otp_codes b !! other.
Proof.
  intros Hne. split.
  - by apply step_other_user.
  - by apply step_other_otp.
Qed.

Lemma updates_touch_only_their_user_witness :
  users (step live_bot (Callback bob (str "gen_login_2fa"))) !! 7%Z
  = users live_bot !! 7%Z
  ∧ otp_codes (step live_bot (Callback bob (str "gen_login_2fa"))) !! 7%Z
    = otp_codes live_bot !! 7%Z.
Proof.
  apply (updates_touch_only_their_user live_bot
           (Callback bob (str "gen_login_2fa")) 7).
  vm_compute. discriminate.
Defined.

(** ** Registration *)

Lemma same_profile_refl usr : same_profile usr usr.
Proof. by repeat split. Qed.

Lemma same_profile_trans u1 u2 u3 :
  same_profile u1 u2 → same_profile u2 u3 → same_profile u1 u3.
Proof.
  intros (? & ? & ? & ?) (? & ? & ? & ?). repeat split; congruence.
Qed.

Lemma profile_step b u user_id usr :
  users b !! user_id = Some usr →
  ∃ usr', users (step b u) !! user_id = Some usr' ∧ same_profile usr usr'.
Proof.
  intros Hu.
  destruct (decide (user_id = tg_id (effective_user u))) as [->|Hne].
  - step_cases b u;
      repeat match goal with
             | H : same_records _ _ |- _ => destruct H as (? & ? & ?)
             | H : users _ = _ |- _ => rewrite H; clear H
             end;
      try congruence;
      try (exists usr; split; [done | apply same_profile_refl]);
      rewrite lookup_insert_eq; eexists; (split; [reflexivity|]);
      replace usr0 with usr by congruence; by repeat split.
  - exists usr. split; [|apply same_profile_refl].
    by rewrite (step_other_user b u user_id Hne).
Qed.

(** X2. A registered user stays registered, and across any sequence of
    updates the first name, last name, username and registration time of the
    record never change: a later /start does not refresh them, and the other
    handlers write the two counters only. *)
Theorem profile_is_permanent b user_id usr us :
  users b !! user_id = Some usr →
  ∃ usr', users (run_updates b us) !! user_id = Some usr' ∧ same_profile usr usr'.
Proof.
  revert b usr. induction us as [|u us IH]; intros b usr Hu.
  - exists usr. split; [done | apply same_profile_refl].
  - destruct (profile_step b u user_id usr Hu) as (usr1 & Hu1 & Hp1).
    destruct (IH (step b u) usr1 Hu1) as (usr' & Hu' & Hp').
    exists usr'. split; [exact Hu' | by eapply same_profile_trans].
Qed.

Lemma profile_is_permanent_witness :
  ∃ usr', users (run_updates live_bot
                   [Command (mkTgUser 7 (str "Bob") None None) CStart;
                    Text alice (str "012345")]) !! 7%Z = Some usr'
          ∧ same_profile al_after_generate usr'.
Proof.
  apply (profile_is_permanent live_bot 7 al_after_generate).
  vm_compute. reflexivity.
Defined.

Lemma step_of_start b u :
  is_start u = true →
  step b u = (start (effective_user u)
                (match u with Command _ _ => ReplyText | _ => EditMessage end)
                (match u with Command _ _ => b | _ => push_sent Answer b end)).2.
Proof.
  destruct u as [user []|user data|user text]; try done.
  cbn [is_start]. intros ->%bool_decide_eq_true. reflexivity.
Qed.

(** X3. After an update, a user is registered exactly when they were
    registered before or the update is their own /start (or "Back to Main"
    button): no other handler ever creates a user record. *)
Theorem only_start_registers b u user_id :
  is_Some (users (step b u) !! user_id)
  ↔ is_Some (users b !! user_id)
    ∨ (is_start u = true ∧ tg_id (effective_user u) = user_id).
Proof.
  split.
  - intros Hafter.
    destruct (decide (user_id = tg_id (effective_user u))) as [->|Hne].
    + destruct (users b !! tg_id (effective_user u)) as [usr|] eqn:Hu; [eauto|].
      revert Hafter. step_cases b u;
        repeat match goal with
               | H : same_records _ _ |- _ => destruct H as (? & ? & ?)
               | H : users _ = _ |- _ => rewrite H; clear H
               end;
        try congruence; rewrite ?Hu; try (by intros [? ?]); auto.
    + rewrite (step_other_user b u user_id Hne) in Hafter.
      auto.
  - intros [[usr Hu]|[Hs <-]].
    + destruct (profile_step b u user_id usr Hu) as (usr' & Hu' & _). eauto.
    + rewrite step_of_start by done.
      set (b0 := match u with Command _ _ => b | _ => push_sent Answer b end).
      destruct (users b0 !! tg_id (effective_user u)) as [usr|] eqn:Hu.
      * rewrite start_registered by eauto. cbn. rewrite Hu. eauto.
      * rewrite start_unregistered by done. cbn. rewrite lookup_insert_eq. eauto.
Qed.

(** ** Persistence *)

Lemma saved_users_step loaded b u :
  users b = saved_users loaded b →
  users (step b u) = saved_users loaded (step b u).
Proof.
  intros Hsync. unfold saved_users in *.
  step_cases b u;
    repeat match goal with
           | H : same_records _ _ |- _ => destruct H as (? & ? & ?)
           | H : saves _ = _ |- _ => rewrite H; clear H
           end;
    try done; congruence.
Qed.

(** X4. After every update the users in memory are the ones last handed to
    [save_data] (or the loaded ones, when nothing was saved yet): no handler
    changes a user record without saving, not even one that raises. *)
Theorem saves_follow_users loaded clk gen us :
  users (run_updates (init loaded clk gen) us)
  = saved_users loaded (run_updates (init loaded clk gen) us).
Proof.
  assert (H : ∀ b, users b = saved_users loaded b →
                   users (run_updates b us) = saved_users loaded (run_updates b us)).
  { induction us as [|u us IH]; intros b Hb; [done|].
    cbn. apply IH. by apply saved_users_step. }
  by apply H.
Qed.

(** ** The live store in reachable states *)

Lemma fresh_otp_well_formed b service_id service_info :
  services !! service_id = Some service_info →
  well_formed_otp (fresh_otp b service_id service_info).
Proof.
  intros Hs. split; [apply choices_from_length|].
  split; [apply choices_from_digits|]. by exists service_info.
Qed.

Lemma well_formed_step b u :
  (∀ user_id o, otp_codes b !! user_id = Some o → well_formed_otp o) →
  ∀ user_id o, otp_codes (step b u) !! user_id = Some o → well_formed_otp o.
Proof.
  intros Hwf user_id o.
  step_cases b u;
    repeat match goal with
           | H : same_records _ _ |- _ => destruct H as (? & ? & ?)
           | H : otp_codes _ = _ |- _ => rewrite H; clear H
           end;
    try apply Hwf.
  - intros [[_ <-]|[_ Hl]]%lookup_insert_Some;
      [by apply fresh_otp_well_formed | by apply (Hwf user_id)].
  - intros [[_ <-]|[_ Hl]]%lookup_insert_Some;
      [by apply fresh_otp_well_formed | by apply (Hwf user_id)].
  - intros [_ Hl]%lookup_delete_Some. by apply (Hwf user_id).
  - intros [_ Hl]%lookup_delete_Some. by apply (Hwf user_id).
  - intros [[_ <-]|[_ Hl]]%lookup_insert_Some; [|by apply (Hwf user_id)].
    by apply (Hwf (tg_id (effective_user u)) o0).
Qed.

(** X5. In every reachable state, every record of the live store has a code
    of exactly six decimal digits and names a configured service together
    with that service's display name; so the stored code, typed as it is,
    always passes the six-digit test of [handle_text_message]. *)
Theorem live_records_are_well_formed b user_id o :
  reachable b →
  otp_codes b !! user_id = Some o →
  well_formed_otp o
  ∧ isdigit (strip (code o)) && bool_decide (length (strip (code o)) = 6) = true.
Proof.
  intros Hreach Hl.
  assert (Hwf : well_formed_otp o).
  { revert user_id o Hl. induction Hreach as [loaded clk gen|b u _ IH].
    - intros user_id o Hl. cbn in Hl. by rewrite lookup_empty in Hl.
    - by apply well_formed_step. }
  split; [exact Hwf|].
  destruct Hwf as (Hlen & Hdig & _).
  assert (Hd : isdigit (code o) = true).
  { destruct (code o) as [|c cs] eqn:Hc; [done|].
    cbn [isdigit]. apply forallb_forall. intros x Hx.
    apply decimal_digit_isdigit. rewrite Forall_forall in Hdig.
    apply Hdig. by apply list_elem_of_In. }
  rewrite (strip_digits _ Hd), Hd. by rewrite bool_decide_true.
Qed.

Lemma live_records_are_well_formed_witness :
  well_formed_otp otp_012345.
Proof.
  apply (live_records_are_well_formed live_bot 7 otp_012345).
  - apply reachable_run_updates. constructor.
  - vm_compute. reflexivity.
Defined.

(** ** What a success message guarantees *)

(** X6. A success message is sent only for a record that was in the live
    store, unexpired at the clock reading of the check, presented with its
    own code (a typed text must equal it after [strip]), and owned by a
    registered user; after that update the record is gone and the user's
    [verified_count] is one higher.  No update ever reports success for a
    wrong or expired code. *)
Theorem success_needs_a_live_matching_record b u m :
  reply b u = Some m → is_success m = true →
  ∃ o usr,
    otp_codes b !! tg_id (effective_user u) = Some o
    ∧ presents u o
    ∧ (clock b (ticks b) ≤ expires_at o)%Z
    ∧ users b !! tg_id (effective_user u) = Some usr
    ∧ otp_codes (step b u) !! tg_id (effective_user u) = None
    ∧ users (step b u) !! tg_id (effective_user u)
      = Some (bump_verified_count usr).
Proof.
  intros Hreply Hsucc.
  step_cases b u; symmetry in Hsent;
    try (rewrite (reply_of_acks b u _ Hsent) in Hreply by done; discriminate);
    rewrite (reply_of_send b u _ _ _ Hsent) in Hreply;
    injection Hreply as <-;
    try (match goal with H : quiet _ |- _ => destruct H as [_ Hq] end; congruence);
    try congruence.
  exists o, usr. split_and!; try done.
  - match goal with H : otp_codes _ = _ |- _ => rewrite H end.
    apply lookup_delete_eq.
  - match goal with H : users _ = _ |- _ => rewrite H end.
    apply lookup_insert_eq.
Qed.

Lemma success_needs_a_live_matching_record_witness :
  ∃ o usr,
    otp_codes live_bot !! 7%Z = Some o
    ∧ presents (Text alice (str " 012345 ")) o
    ∧ (clock live_bot (ticks live_bot) ≤ expires_at o)%Z
    ∧ users live_bot !! 7%Z = Some usr
    ∧ otp_codes (step live_bot (Text alice (str " 012345 "))) !! 7%Z = None
    ∧ users (step live_bot (Text alice (str " 012345 "))) !! 7%Z
      = Some (bump_verified_count usr).
Proof.
  apply (success_needs_a_live_matching_record live_bot
           (Text alice (str " 012345 "))
           (MVerified (str "2FA Login") (str "012345") 8)).
  - vm_compute. reflexivity.
  - reflexivity.
Defined.

(** ** Exceptions *)

(** X7. A subscript of [self.services], [self.users] or [self.otp_codes]
    raises [KeyError] only for a service id that is not configured or for
    the acting user when that user is not registered; the subscripts of the
    live store never raise.  When one raises, the update has sent no message
    and the users and what was saved are as they were. *)
Theorem raising_update_is_silent b u e :
  (process_update u b).1 = Raise e →
  reply b u = None
  ∧ users (step b u) = users b
  ∧ saves (step b u) = saves b
  ∧ ((∃ service_id, e = KeyError_service service_id
                    ∧ services !! service_id = None)
     ∨ (e = KeyError_user (tg_id (effective_user u))
        ∧ users b !! tg_id (effective_user u) = None)).
Proof.
  intros Hraise.
  step_cases b u; symmetry in Hsent; try discriminate;
    injection Hraise as <-;
    repeat match goal with
           | H : same_records _ _ |- _ => destruct H as (? & ? & ?)
           end;
    (split; [by apply (reply_of_acks b u _ Hsent)|]);
    (split; [done|]); (split; [done|]); eauto.
Qed.

Lemma raising_update_is_silent_witness :
  reply unregistered_bot (Callback alice (str "verify_current")) = None
  ∧ users used_bot = users unregistered_bot.
Proof.
  pose proof (raising_update_is_silent unregistered_bot
                (Callback alice (str "verify_current")) (KeyError_user 7)) as H.
  destruct H as (Hr & Hu & _).
  - vm_compute. reflexivity.
  - split; [exact Hr | exact Hu].
Defined.

(** ** Generating, then verifying *)

Lemma fresh_code_is_six_digits b service_id service_info :
  let o := fresh_otp b service_id service_info in
  strip (code o) = code o
  ∧ isdigit (strip (code o)) = true ∧ length (strip (code o)) = 6.
Proof.
  intros o.
  assert (Hd : isdigit (code o) = true).
  { pose proof (choices_from_digits (rng b) (draws b) 6) as Hdig.
    change (Forall decimal_digit (code o)) in Hdig.
    pose proof (choices_from_length (rng b) string_digits (draws b) 6) as Hlen.
    change (length (code o) = 6) in Hlen.
    destruct (code o) as [|c cs] eqn:Hc; [done|].
    cbn [isdigit]. apply forallb_forall. intros x Hx.
    apply decimal_digit_isdigit. rewrite Forall_forall in Hdig.
    apply Hdig. by apply list_elem_of_In. }
  rewrite (strip_digits _ Hd). split; [done|]. split; [done|].
  apply choices_from_length.
Qed.

(** X8. For a registered user, pressing the button of a configured service
    shows the code that is stored, and typing that code afterwards verifies
    it when the clock reading of the check is not past the expiry: the
    record is deleted and both counters are one higher than before the
    generation.  When that reading is past the expiry the typed code is
    refused and the record is deleted all the same. *)
Theorem generated_code_verifies b user usr service_id service_info :
  users b !! tg_id user = Some usr →
  services !! service_id = Some service_info →
  let o := fresh_otp b service_id service_info in
  let pressed := Callback user (str "gen_" ++ service_id) in
  let typed := Text user (code o) in
  let b1 := step b pressed in
  reply b pressed
  = Some (MGenerated (name service_info) (code o)
            (expiry service_info `div` 60) (expiry service_info `mod` 60)
            (clock b (3 + ticks b)))
  ∧ ((clock b (4 + ticks b) ≤ expires_at o)%Z →
     reply b1 typed
     = Some (MVerified (name service_info) (code o) (clock b (6 + ticks b)))
     ∧ otp_codes (step b1 typed) !! tg_id user = None
     ∧ users (step b1 typed) !! tg_id user
       = Some (bump_verified_count (bump_otp_count usr)))
  ∧ ((clock b (4 + ticks b) > expires_at o)%Z →
     reply b1 typed = Some MInvalidOrExpired
     ∧ otp_codes (step b1 typed) !! tg_id user = None
     ∧ users (step b1 typed) !! tg_id user = Some (bump_otp_count usr)).
Proof.
  intros Hu Hs o pressed typed b1.
  assert (Hb1 : b1 = generation_trace (push_sent Answer b) (tg_id user)
                       service_id service_info usr).
  { unfold b1, step, pressed. cbn [process_update]. rewrite button_gen.
    by rewrite (generate_registered _ _ _ service_info Hs usr). }
  destruct (fresh_code_is_six_digits b service_id service_info)
    as (Hstrip & Hd & Hlen). fold o in Hstrip, Hd, Hlen.
  assert (Hl1 : otp_codes b1 !! tg_id user = Some o)
    by (rewrite Hb1; cbn; apply lookup_insert_eq).
  assert (Hu1 : users b1 !! tg_id user = Some (bump_otp_count usr))
    by (rewrite Hb1; cbn; apply lookup_insert_eq).
  assert (Hclock : clock b1 (ticks b1) = clock b (4 + ticks b))
    by (by rewrite Hb1).
  split.
  { apply (reply_pushed _ _ EditMessage _ [Answer]).
    fold b1. by rewrite Hb1. }
  split.
  - intros Hlive.
    assert (Hrun : process_update typed b1
              = (Ok (), verification_trace b1 (tg_id user) o (bump_otp_count usr)
                          ReplyText (MVerified (service_name o) (code o)))).
    { cbn [process_update typed].
      apply (text_verified b1 (tg_id user) (code o) Hd Hlen); try done.
      by rewrite Hclock. }
    split.
    { apply (reply_pushed _ _ ReplyText _ []). unfold step. rewrite Hrun.
      by rewrite Hb1. }
    unfold step. rewrite Hrun. split.
    + apply lookup_verification_trace.
    + cbn. apply lookup_insert_eq.
  - intros Hlate.
    assert (Hrun : process_update typed b1
              = (Ok (), push_sent (Send ReplyText MInvalidOrExpired)
                          (set_otp_codes (delete (tg_id user)) (tick b1)))).
    { cbn [process_update typed].
      apply (text_expired_code b1 (tg_id user) (code o) Hd Hlen o); try done.
      by rewrite Hclock. }
    split.
    { apply (reply_pushed _ _ ReplyText _ []). unfold step. by rewrite Hrun. }
    unfold step. rewrite Hrun. cbn. split; [apply lookup_delete_eq | done].
Qed.

Lemma generated_code_verifies_witness :
  reply (step live_bot (Callback alice (str "gen_password_reset")))
        (Text alice (code (fresh_otp live_bot (str "password_reset")
                             (mkService (str "Password Reset") 600))))
  = Some (MVerified (str "Password Reset")
            (code (fresh_otp live_bot (str "password_reset")
                     (mkService (str "Password Reset") 600)))
            (clock live_bot (6 + ticks live_bot))).
Proof.
  pose proof (generated_code_verifies live_bot alice al_after_generate
                (str "password_reset") (mkService (str "Password Reset") 600))
    as H.
  cbv zeta in H.
  destruct H as (_ & Hlive & _).
  - vm_compute. reflexivity.
  - vm_compute. reflexivity.
  - destruct Hlive as (Hr & _).
    + vm_compute. discriminate.
    + exact Hr.
Defined.

(** ** The used flag is never read *)

(** X9. [is_otp_valid] does not look at [used].  When the verify-current
    button of an unregistered user has marked the record used and raised,
    and the user then sends /start, pressing the button again succeeds on
    the used record as long as it has not expired; the user ends with
    [verified_count] 1 and [otp_count] 0. *)
Theorem used_record_verifies_after_start b user o :
  users b !! tg_id user = None →
  otp_codes b !! tg_id user = Some o →
  (clock b (ticks b) ≤ expires_at o)%Z →
  (clock b (3 + ticks b) ≤ expires_at o)%Z →
  let pressed := Callback user (str "verify_current") in
  let b1 := step b pressed in
  let b2 := step b1 (Command user CStart) in
  (process_update pressed b).1 = Raise (KeyError_user (tg_id user))
  ∧ otp_codes b1 !! tg_id user = Some (mark_used o)
  ∧ otp_codes b2 !! tg_id user = Some (mark_used o)
  ∧ reply b2 pressed
    = Some (MVerifiedCurrent (service_name o) (code o) (clock b (5 + ticks b)))
  ∧ otp_codes (step b2 pressed) !! tg_id user = None
  ∧ users (step b2 pressed) !! tg_id user
    = Some (bump_verified_count (new_user user (clock b (1 + ticks b)))).
Proof.
  intros Hu Hl Hlive Hlive' pressed b1 b2.
  assert (Hrun1 : process_update pressed b
            = (Raise (KeyError_user (tg_id user)),
               set_otp_codes <[tg_id user := mark_used o]>
                 (tick (push_sent Answer b)))).
  { unfold pressed. cbn [process_update]. rewrite button_verify_current.
    by apply current_unregistered. }
  assert (Hb1 : b1 = set_otp_codes <[tg_id user := mark_used o]>
                       (tick (push_sent Answer b)))
    by (unfold b1, step; by rewrite Hrun1).
  assert (Hb2 : b2 = (start user ReplyText b1).2) by done.
  rewrite start_unregistered in Hb2 by (by rewrite Hb1).
  cbn [snd] in Hb2.
  assert (Hl2 : otp_codes b2 !! tg_id user = Some (mark_used o)).
  { rewrite Hb2, Hb1. cbn. apply lookup_insert_eq. }
  assert (Hu2 : users b2 !! tg_id user
                = Some (new_user user (clock b (1 + ticks b)))).
  { rewrite Hb2, Hb1. cbn. apply lookup_insert_eq. }
  assert (Hrun2 : process_update pressed b2
            = (Ok (), verification_trace (push_sent Answer b2) (tg_id user)
                        (mark_used o) (new_user user (clock b (1 + ticks b)))
                        EditMessage
                        (MVerifiedCurrent (service_name (mark_used o))
                           (code (mark_used o))))).
  { unfold pressed. cbn [process_update]. rewrite button_verify_current.
    apply current_verified; try done.
    rewrite Hb2, Hb1. exact Hlive'. }
  split; [by rewrite Hrun1|].
  split; [rewrite Hb1; cbn; apply lookup_insert_eq|].
  split; [exact Hl2|].
  split.
  { apply (reply_pushed _ _ EditMessage _ [Answer]). unfold step.
    rewrite Hrun2. by rewrite Hb2, Hb1. }
  unfold step. rewrite Hrun2. split.
  - apply lookup_verification_trace.
  - cbn. apply lookup_insert_eq.
Qed.

Lemma used_record_verifies_after_start_witness :
  reply (step used_bot (Command alice CStart))
        (Callback alice (str "verify_current"))
  = Some (MVerifiedCurrent (str "2FA Login") (str "012345") 7).
Proof.
  pose proof (used_record_verifies_after_start unregistered_bot alice
                (mkOtp (str "012345") (str "login_2fa") (str "2FA Login")
                   1 180000000 false)) as H.
  cbv zeta in H.
  destruct H as (_ & _ & _ & Hr & _).
  - vm_compute. reflexivity.
  - vm_compute. reflexivity.
  - vm_compute. discriminate.
  - vm_compute. discriminate.
  - exact Hr.
Defined.

(** ** The verify menu and the stats *)

Lemma current_otp_info_cases user_id b :
  current_otp_info user_id b
  = match otp_codes b !! user_id with
    | None => (Ok InfoNone, b)
    | Some o =>
        if bool_decide (expires_at o - clock b (ticks b) > 0)%Z then
          (Ok (InfoActive (code o) (service_name o)
                 (((expires_at o - clock b (ticks b)) `quot` 1000000) `div` 60)
                 (((expires_at o - clock b (ticks b)) `quot` 1000000) `mod` 60)),
           tick b)
        else (Ok InfoExpired, tick b)
    end.
Proof.
  unfold current_otp_info. mrun.
  destruct (otp_codes b !! user_id); [|done]. by case_bool_decide.
Qed.

(** X10. The /verify menu only reads: it leaves the users, the live store
    (an expired record included) and the saves as they are.  It shows "no
    active OTP" when there is no record or the clock has reached the expiry,
    and otherwise the stored code with minutes and seconds, the seconds
    below 60; as long as the time left is below 2^34 seconds, where the
    float [total_seconds()] is exact to the microsecond, the two make up the
    whole seconds left. *)
Theorem verify_menu_only_reads b user :
  let u := Command user CVerify in
  users (step b u) = users b
  ∧ otp_codes (step b u) = otp_codes b
  ∧ saves (step b u) = saves b
  ∧ ∃ info, reply b u = Some (MVerifyMenu info)
      ∧ match info with
        | InfoNone => otp_codes b !! tg_id user = None
        | InfoExpired =>
            ∃ o, otp_codes b !! tg_id user = Some o
                 ∧ (expires_at o ≤ clock b (ticks b))%Z
        | InfoActive c sn mins secs =>
            ∃ o, otp_codes b !! tg_id user = Some o
                 ∧ (clock b (ticks b) < expires_at o)%Z
                 ∧ c = code o ∧ sn = service_name o
                 ∧ (0 ≤ secs < 60)%Z
                 ∧ ((expires_at o - clock b (ticks b) < exact_seconds_bound)%Z →
                    (mins * 60 + secs
                     = (expires_at o - clock b (ticks b)) `quot` 1000000)%Z)
        end.
Proof.
  intros u.
  assert (Hrun : ∃ info b1, process_update u b
                   = (Ok (), push_sent (Send ReplyText (MVerifyMenu info)) b1)
                   ∧ current_otp_info (tg_id user) b = (Ok info, b1)).
  { unfold u. cbn [process_update]. unfold verify_otp_command.
    destruct (current_otp_info_run (tg_id user) b) as (i & b1 & Hi & _).
    exists i, b1. split; [|done]. unfold mbind, M_bind. by rewrite Hi. }
  destruct Hrun as (info & b1 & Hrun & Hinfo).
  rewrite current_otp_info_cases in Hinfo.
  assert (Hsame : users b1 = users b ∧ otp_codes b1 = otp_codes b
                  ∧ saves b1 = saves b ∧ outbox b1 = outbox b).
  { destruct (otp_codes b !! tg_id user); [case_bool_decide|];
      injection Hinfo as _ <-; done. }
  destruct Hsame as (Hus & Hcs & Hss & Hout).
  unfold step. rewrite Hrun. cbn [snd].
  split; [done|]. split; [done|]. split; [done|].
  exists info. split.
  { apply (reply_pushed _ _ ReplyText _ []). unfold step. rewrite Hrun.
    cbn. by rewrite Hout. }
  destruct (otp_codes b !! tg_id user) as [o|] eqn:Hl.
  - case_bool_decide as Hleft; injection Hinfo as <- _.
    + exists o. split; [done|]. split; [lia|]. split; [done|]. split; [done|].
      split.
      * apply Z.mod_pos_bound. lia.
      * intros _.
        pose proof (Z.div_mod ((expires_at o - clock b (ticks b)) `quot` 1000000)
                      60 ltac:(lia)). lia.
    + exists o. split; [done|]. lia.
  - by injection Hinfo as <- _.
Qed.

(** X11. At the very clock reading of the expiry the menu and the check
    disagree: /verify and /stats report the OTP as expired (they test
    [time_left > 0]) while verifying it at that reading still succeeds
    ([is_otp_valid] tests [now > expires_at]). *)
Theorem expiry_instant_is_expired_in_menu_but_valid b user o usr :
  otp_codes b !! tg_id user = Some o →
  users b !! tg_id user = Some usr →
  clock b (ticks b) = expires_at o →
  reply b (Command user CVerify) = Some (MVerifyMenu InfoExpired)
  ∧ reply b (Command user CStats)
    = Some (MStats usr InfoExpired (size services))
  ∧ reply b (Callback user (str "verify_current"))
    = Some (MVerifiedCurrent (service_name o) (code o)
              (clock b (S (S (ticks b)))))
  ∧ reply b (Text user (code o))
    = (if isdigit (strip (code o)) && bool_decide (length (strip (code o)) = 6)
       then if bool_decide (strip (code o) = code o)
            then Some (MVerified (service_name o) (code o)
                         (clock b (S (S (ticks b)))))
            else Some MInvalidOrExpired
       else Some MNotUnderstood).
Proof.
  intros Hl Hu Hnow.
  assert (Hinfo : current_otp_info (tg_id user) b = (Ok InfoExpired, tick b)).
  { rewrite current_otp_info_cases, Hl. by rewrite bool_decide_false by lia. }
  split.
  { apply (reply_pushed _ _ ReplyText _ []). unfold step.
    cbn [process_update]. unfold verify_otp_command, mbind, M_bind.
    by rewrite Hinfo. }
  split.
  { apply (reply_pushed _ _ ReplyText _ []). unfold step.
    cbn [process_update]. unfold stats_command, show_stats. mrun.
    rewrite Hu. by rewrite Hinfo. }
  split.
  { apply (reply_pushed _ _ EditMessage _ [Answer]). unfold step.
    cbn [process_update]. rewrite button_verify_current.
    by rewrite (current_verified _ _ o usr) by (done || cbn; lia). }
  destruct (isdigit (strip (code o)) && bool_decide (length (strip (code o)) = 6))
    eqn:Hsix.
  - apply andb_prop in Hsix as [Hd Hlen%bool_decide_eq_true].
    pose proof (six_digits_reply b user (code o) Hd Hlen) as H.
    rewrite Hl, Hu in H.
    case_bool_decide; [|done].
    by rewrite bool_decide_false in H by lia.
  - apply (reply_pushed _ _ ReplyText _ []). unfold step. cbn [process_update].
    by rewrite text_not_understood.
Qed.

Lemma expiry_instant_is_expired_in_menu_but_valid_witness :
  reply instant_bot (Command alice CVerify) = Some (MVerifyMenu InfoExpired)
  ∧ reply instant_bot (Callback alice (str "verify_current"))
    = Some (MVerifiedCurrent (str "2FA Login") (str "012345") 180000002).
Proof.
  pose proof (expiry_instant_is_expired_in_menu_but_valid instant_bot
                alice otp_012345 al_after_generate) as H.
  destruct H as (Hm & _ & Hv & _).
  - vm_compute. reflexivity.
  - vm_compute. reflexivity.
  - vm_compute. reflexivity.
  - split; [exact Hm | exact Hv].
Defined.

(** ** The service menu *)

Lemma service_buttons_configured data :
  data ∈ service_buttons →
  ∃ service_id service_info,
    data = str "gen_" ++ service_id ∧ services !! service_id = Some service_info.
Proof.
  unfold service_buttons, services_items. cbn [fmap list_fmap fst].
  intros H.
  repeat (apply elem_of_cons in H as [->|H];
          [eexists _, _; split; [reflexivity | vm_compute; reflexivity]|]).
  by apply elem_of_nil in H.
Qed.

Lemma button_main user b :
  button_callback user (str "main") b = start user EditMessage (push_sent Answer b).
Proof. reflexivity. Qed.

(** X12. /generate changes no record and offers one button per configured
    service, followed by "Back to Main".  For a registered user every button
    it offers is handled without an exception: a service button reaches
    [generate_otp_for_service] with a configured service id and stores the
    fresh record, and "Back to Main" shows the welcome message and changes
    no record. *)
Theorem offered_buttons_generate b user usr data :
  users b !! tg_id user = Some usr →
  data ∈ offered_buttons →
  reply b (Command user CGenerate) = Some (MSelectService offered_buttons)
  ∧ length offered_buttons = S (size services)
  ∧ users (step b (Command user CGenerate)) = users b
  ∧ otp_codes (step b (Command user CGenerate)) = otp_codes b
  ∧ ((data = str "main"
      ∧ process_update (Callback user data) b
        = (Ok (), push_sent (Send EditMessage (MWelcome (tg_first_name user)))
                    (push_sent Answer b)))
     ∨ ∃ service_id service_info,
         data = str "gen_" ++ service_id
         ∧ services !! service_id = Some service_info
         ∧ process_update (Callback user data) b
           = (Ok (), generation_trace (push_sent Answer b) (tg_id user)
                       service_id service_info usr)
         ∧ otp_codes (step b (Callback user data)) !! tg_id user
           = Some (fresh_otp b service_id service_info)).
Proof.
  intros Hu Hin.
  split. { by apply (reply_pushed _ _ ReplyText _ []). }
  split. { vm_compute. reflexivity. }
  split; [done|]. split; [done|].
  unfold offered_buttons in Hin. apply elem_of_app in Hin as [Hin|Hin].
  - right.
    destruct (service_buttons_configured data Hin)
      as (service_id & service_info & -> & Hs).
    exists service_id, service_info.
    assert (Hrun : process_update (Callback user (str "gen_" ++ service_id)) b
              = (Ok (), generation_trace (push_sent Answer b) (tg_id user)
                          service_id service_info usr)).
    { cbn [process_update]. rewrite button_gen.
      by apply generate_registered. }
    split; [done|]. split; [done|]. split; [exact Hrun|].
    unfold step. rewrite Hrun. cbn. apply lookup_insert_eq.
  - left. apply list_elem_of_singleton in Hin as ->. split; [done|].
    cbn [process_update]. rewrite button_main.
    apply start_registered. cbn. eauto.
Qed.

Lemma offered_buttons_generate_witness :
  ∃ service_id service_info,
    str "gen_account_security" = str "gen_" ++ service_id
    ∧ services !! service_id = Some service_info
    ∧ otp_codes (step live_bot (Callback alice (str "gen_account_security")))
        !! 7%Z
      = Some (fresh_otp live_bot service_id service_info).
Proof.
  pose proof (offered_buttons_generate live_bot alice al_after_generate
                (str "gen_account_security")) as H.
  destruct H as (_ & _ & _ & _ & [[He _]|(sid & svc & He & Hs & _ & Hl)]).
  - vm_compute. reflexivity.
  - unfold offered_buttons, service_buttons, services_items.
    cbn [fmap list_fmap fst app]. repeat constructor.
  - vm_compute in He. discriminate He.
  - exists sid, svc. split; [exact He|]. split; [exact Hs | exact Hl].
Defined.

(** ** The validity check *)

(** X13. [is_otp_valid] never raises.  It answers [True] exactly when the
    user has a record whose code equals the presented one and the clock
    reading is not past its expiry; the [used] flag plays no part.  It
    leaves the users alone, and the only change it makes to the live store
    is to delete the user's record when the code matches and has expired; a
    mismatching code reads no clock and changes nothing. *)
Theorem is_otp_valid_contract b user_id otp :
  ∃ ok,
    (is_otp_valid user_id otp b).1 = Ok ok
    ∧ (ok = true
       ↔ ∃ o, otp_codes b !! user_id = Some o ∧ code o = otp
              ∧ (clock b (ticks b) ≤ expires_at o)%Z)
    ∧ users (is_otp_valid user_id otp b).2 = users b
    ∧ (otp_codes (is_otp_valid user_id otp b).2 ≠ otp_codes b →
       ok = false
       ∧ otp_codes (is_otp_valid user_id otp b).2 = delete user_id (otp_codes b)
       ∧ ∃ o, otp_codes b !! user_id = Some o ∧ code o = otp
              ∧ (clock b (ticks b) > expires_at o)%Z)
    ∧ ((∀ o, otp_codes b !! user_id = Some o → code o ≠ otp) →
       (is_otp_valid user_id otp b).2 = b).
Proof.
  destruct (otp_codes b !! user_id) as [o|] eqn:Hl.
  - destruct (decide (code o = otp)) as [<-|Hne].
    + destruct (decide (clock b (ticks b) > expires_at o)%Z) as [Hlate|Hlive].
      * rewrite (is_otp_valid_expired b user_id o Hl Hlate).
        exists false. cbn. split; [done|]. split.
        { split; [done|]. intros (o' & [= <-] & _ & ?). lia. }
        split; [done|]. split.
        { intros _. split; [done|]. split; [done|]. by exists o. }
        intros Hno. by destruct (Hno o).
      * rewrite (is_otp_valid_live b user_id o Hl) by lia.
        exists true. cbn. split; [done|]. split.
        { split; [|done]. intros _. exists o. split; [done|]. split; [done|lia]. }
        split; [done|]. split; [done|].
        intros Hno. by destruct (Hno o).
    + rewrite (is_otp_valid_mismatch b user_id o otp Hl Hne).
      exists false. cbn. split; [done|]. split.
      { split; [done|]. by intros (o' & [= <-] & ? & _). }
      split; [done|]. split; [done|]. done.
  - rewrite (is_otp_valid_absent b user_id otp Hl).
    exists false. cbn. split; [done|]. split.
    { split; [done|]. by intros (o' & ? & _). }
    split; [done|]. split; [done|]. done.
Qed.

(** ** Replacing a code *)

(** X14. Generating again replaces the code: for a registered user who
    holds a record, after the button of a configured service the old code,
    typed, is refused unless it happens to equal the new one, and the new
    record stays in the live store with the counters as the generation left
    them. *)
Theorem old_code_is_refused_after_regeneration
    b user usr old service_id service_info text :
  users b !! tg_id user = Some usr →
  otp_codes b !! tg_id user = Some old →
  services !! service_id = Some service_info →
  strip text = code old →
  isdigit (strip text) = true → length (strip text) = 6 →
  code old ≠ code (fresh_otp b service_id service_info) →
  let b1 := step b (Callback user (str "gen_" ++ service_id)) in
  reply b1 (Text user text) = Some MInvalidOrExpired
  ∧ otp_codes (step b1 (Text user text)) !! tg_id user
    = Some (fresh_otp b service_id service_info)
  ∧ users (step b1 (Text user text)) !! tg_id user = Some (bump_otp_count usr).
Proof.
  intros Hu Hl Hs Heq Hd Hlen Hne b1.
  assert (Hb1 : b1 = generation_trace (push_sent Answer b) (tg_id user)
                       service_id service_info usr).
  { unfold b1, step. cbn [process_update]. rewrite button_gen.
    by rewrite (generate_registered _ _ _ service_info Hs usr). }
  assert (Hl1 : otp_codes b1 !! tg_id user
                = Some (fresh_otp b service_id service_info))
    by (rewrite Hb1; cbn; apply lookup_insert_eq).
  assert (Hu1 : users b1 !! tg_id user = Some (bump_otp_count usr))
    by (rewrite Hb1; cbn; apply lookup_insert_eq).
  assert (Hrun : process_update (Text user text) b1
            = (Ok (), push_sent (Send ReplyText MInvalidOrExpired) b1)).
  { cbn [process_update].
    apply (text_wrong_code b1 (tg_id user) text Hd Hlen
             (fresh_otp b service_id service_info) Hl1).
    congruence. }
  split.
  { apply (reply_pushed _ _ ReplyText _ []). unfold step. by rewrite Hrun. }
  unfold step. rewrite Hrun. by cbn.
Qed.

Lemma old_code_is_refused_after_regeneration_witness :
  reply (step live_bot (Callback alice (str "gen_password_reset")))
        (Text alice (str "012345"))
  = Some MInvalidOrExpired.
Proof.
  pose proof (old_code_is_refused_after_regeneration live_bot alice
                al_after_generate otp_012345 (str "password_reset")
                (mkService (str "Password Reset") 600) (str "012345")) as H.
  cbv zeta in H.
  destruct H as (Hr & _).
  - vm_compute. reflexivity.
  - vm_compute. reflexivity.
  - vm_compute. reflexivity.
  - vm_compute. reflexivity.
  - vm_compute. reflexivity.
  - vm_compute. reflexivity.
  - vm_compute. discriminate.
  - exact Hr.
Defined.

(** ** Single use *)

Lemma no_record_step b u user_id :
  otp_codes b !! user_id = None →
  no_generation_by user_id u →
  otp_codes (step b u) !! user_id = None.
Proof.
  intros Hnone Hnogen.
  destruct (decide (user_id = tg_id (effective_user u))) as [->|Hne];
    [|by rewrite step_other_otp].
  step_cases b u;
    repeat match goal with
           | H : same_records _ _ |- _ => destruct H as (? & ? & ?)
           | H : otp_codes _ = _ |- _ => rewrite H; clear H
           end;
    try done; try congruence;
    by destruct Hnogen.
Qed.

Lemma no_record_run us b user_id :
  otp_codes b !! user_id = None →
  Forall (no_generation_by user_id) us →
  otp_codes (run_updates b us) !! user_id = None.
Proof.
  revert b. induction us as [|u us IH]; intros b Hnone Hall; [done|].
  apply Forall_cons in Hall as [Hu Hus].
  cbn. apply IH; [by apply no_record_step | done].
Qed.

Lemma no_success_without_record b v user_id :
  otp_codes b !! user_id = None →
  answered is_success user_id b v = false.
Proof.
  intros Hnone. unfold answered.
  case_bool_decide as Heq; [subst user_id; cbn [andb]|done].
  destruct (reply b v) as [m|] eqn:Hreply; [|done].
  destruct (is_success m) eqn:Hsucc; [exfalso|done].
  revert Hreply. unfold reply.
  step_cases b v; intros Hreply;
    repeat match goal with
           | H : acks _ |- _ => destruct H as [|? ? ->]
           | H : quiet (Send _ _) |- _ => destruct H as [? ?]
           end;
    simplify_eq; congruence.
Qed.

(** X15. A verified code cannot be replayed.  After an update that was
    answered with a success message, and whatever updates follow from any
    user, no update is answered with success for that user until the user
    presses a service button again; the user has no record in the live store
    throughout. *)
Theorem verified_code_cannot_be_replayed b u m us v :
  reply b u = Some m → is_success m = true →
  Forall (no_generation_by (tg_id (effective_user u))) us →
  otp_codes (run_updates (step b u) us) !! tg_id (effective_user u) = None
  ∧ answered is_success (tg_id (effective_user u))
      (run_updates (step b u) us) v = false.
Proof.
  intros Hreply Hsucc Hall.
  assert (Hgone : otp_codes (step b u) !! tg_id (effective_user u) = None).
  { revert Hreply. unfold reply.
    step_cases b u; intros Hreply;
      repeat match goal with
             | H : acks _ |- _ => destruct H as [|? ? ->]
             | H : quiet (Send _ _) |- _ => destruct H as [? ?]
             end;
      simplify_eq; try congruence.
    all: match goal with H : otp_codes _ = _ |- _ => rewrite H end.
    all: apply lookup_delete_eq. }
  assert (Hnone : otp_codes (run_updates (step b u) us)
                    !! tg_id (effective_user u) = None)
    by (by apply no_record_run).
  split; [exact Hnone | by apply no_success_without_record].
Qed.

Lemma verified_code_cannot_be_replayed_witness :
  answered is_success 7
    (run_updates (step live_bot (Text alice (str "012345")))
       [Callback alice (str "verify_current");
        Callback bob (str "gen_login_2fa");
        Command alice CVerify])
    (Text alice (str "012345"))
  = false.
Proof.
  pose proof (verified_code_cannot_be_replayed live_bot
                (Text alice (str "012345"))
                (MVerified (str "2FA Login") (str "012345") 8)
                [Callback alice (str "verify_current");
                 Callback bob (str "gen_login_2fa");
                 Command alice CVerify]
                (Text alice (str "012345"))) as H.
  destruct H as (_ & Hr).
  - vm_compute. reflexivity.
  - reflexivity.
  - repeat constructor; intros [Hg He]; vm_compute in Hg, He; discriminate.
  - exact Hr.
Defined.
